(** * Data-source console controllers: bindings, page reconciliation, sync

    A shallow embedding of [api/controllers/console/datasets/data_source.py]
    and the properties of its handlers: the integration catalogue
    ([DataSourceApi.get]), the enable/disable transition
    ([DataSourceApi.patch]), the importable-page listing
    ([DataSourceNotionListApi.get]) and the two re-synchronisation
    dispatchers.

    Handlers are state-passing functions over a [World]: the committed
    database rows, the objects the ORM session has loaded for the request
    (Python mutates those in place), and the task runner's queue. *)

From Stdlib Require Import ZArith Ascii.
From stdpp Require Import gmap strings list fin_maps.

Open Scope string_scope.
Open Scope Z_scope.
Open Scope list_scope.

(** ** Values stored in JSON columns

    The values a page dict holds are the ones the marshalling tables of the
    controller declare: strings, booleans, [None], and the nested icon
    object (a dict from strings to strings or [None]).  On these Python's
    [==] is structural equality. *)

Inductive pyval :=
  | PNone
  | PBool (b : bool)
  | PStr (s : string)
  | PDict (d : gmap string (option string)).

#[global] Instance pyval_eq_dec : EqDecision pyval.
Proof. solve_decision. Defined.

(** A page is a Python dict, keyed by attribute name. *)
Abbreviation page := (gmap string pyval).

(** [x in xs] on a Python list. *)
Definition py_in (x : pyval) (xs : list pyval) : bool := bool_decide (x ∈ xs).

(** ** Rows *)

(** [source_info] is a JSON object.  Each field is the value stored under
    the key of that name, [None] when the object has no such key:
    subscripting it then raises [KeyError]. *)
Record SourceInfo := {
  workspace_name : option pyval;
  workspace_icon : option pyval;
  workspace_id : option pyval;
  pages : option (list page)
}.

Record DataSourceBinding := {
  bind_id : string;
  bind_tenant_id : string;
  bind_provider : string;
  bind_access_token : string;
  bind_source_info : SourceInfo;
  bind_disabled : bool;
  bind_created_at : Z;
  bind_updated_at : Z
}.

Record Dataset := {
  ds_id : string;
  ds_tenant_id : string;
  ds_data_source_type : option string
}.

(** [doc_data_source_info] is the text column as [json.loads] decodes it:
    [None] when the text does not decode to a JSON object. *)
Record Document := {
  doc_id : string;
  doc_dataset_id : string;
  doc_tenant_id : string;
  doc_data_source_type : option string;
  doc_data_source_info : option (gmap string pyval);
  doc_enabled : bool
}.

Record Store := {
  bindings : list DataSourceBinding;
  datasets : list Dataset;
  documents : list Document
}.

(** A unit of work handed to the task runner:
    [document_indexing_sync_task.delay(dataset_id, document_id)]. *)
Definition SyncRequest : Type := string * string.

(** ** The world a request runs in *)

Record World := {
  db : Store;                          (* committed rows *)
  session : list DataSourceBinding;    (* binding objects loaded by the request *)
  runner_accepts : SyncRequest → bool; (* whether [delay] publishes or raises *)
  delay_calls : list SyncRequest;      (* every call made to [delay], in order *)
  task_queue : list SyncRequest        (* requests the runner took *)
}.

Definition set_db (w : World) (s : Store) : World :=
  {| db := s; session := session w; runner_accepts := runner_accepts w;
     delay_calls := delay_calls w; task_queue := task_queue w |}.

Definition set_session (w : World) (objs : list DataSourceBinding) : World :=
  {| db := db w; session := objs; runner_accepts := runner_accepts w;
     delay_calls := delay_calls w; task_queue := task_queue w |}.

(** ** Exceptions and results

    [JSONDecodeError] stands for what reading a document's
    [data_source_info] raises when the text is not a JSON object;
    [DispatchFailure] for what [delay] raises when the runner does not take
    the request. *)

Inductive error :=
  | NotFound (msg : string)
  | ValueError (msg : string)
  | KeyError (key : string)
  | JSONDecodeError
  | DispatchFailure.

Definition result (A : Type) : Type := error + A.

(** A handler step: runs in a world, leaves a world, and returns or raises. *)
Definition M (A : Type) : Type := World → World * result A.

Definition ret {A} (a : A) : M A := λ w, (w, inr a).
Definition raise {A} (e : error) : M A := λ w, (w, inl e).
Definition bind {A B} (k : A → M B) (m : M A) : M B :=
  λ w, match m w with
       | (w', inl e) => (w', inl e)
       | (w', inr a) => k a w'
       end.

#[global] Instance M_ret : MRet M := @ret.
#[global] Instance M_bind : MBind M := @bind.

(** ** DataSourceApi *)

Module DataSourceApi.

Record IntegrateEntry := {
  ie_id : option string;
  ie_provider : string;
  ie_created_at : option Z;
  ie_is_bound : bool;
  ie_disabled : option bool;
  ie_source_info : option SourceInfo;
  ie_link : string
}.

(** [request.url_root.rstrip('/')] *)
Fixpoint rstrip_slash (s : string) : string :=
  match s with
  | EmptyString => EmptyString
  | String c r =>
      match rstrip_slash r with
      | EmptyString => if Ascii.eqb c "/"%char then EmptyString else String c EmptyString
      | r' => String c r'
      end
  end.

Definition data_source_oauth_base_path : string := "/console/api/oauth/data-source".
Definition providers : list string := ["notion"].

Definition link (base_url provider : string) : string :=
  base_url +:+ data_source_oauth_base_path +:+ "/" +:+ provider.

(** Truth value of the object [filter(...)] returns.  It is an iterator:
    it defines neither [__bool__] nor [__len__], so [if existing_integrates:]
    takes the first branch whatever the iterator would yield. *)
Definition filter_object_truthy {A} (it : list A) : bool := true.

Definition bound_entry (base_url provider : string)
    (existing_integrate : DataSourceBinding) : IntegrateEntry :=
  {| ie_id := Some (bind_id existing_integrate);
     ie_provider := provider;
     ie_created_at := Some (bind_created_at existing_integrate);
     ie_is_bound := true;
     ie_disabled := Some (bind_disabled existing_integrate);
     ie_source_info := Some (bind_source_info existing_integrate);
     ie_link := link base_url provider |}.

Definition placeholder_entry (base_url provider : string) : IntegrateEntry :=
  {| ie_id := None;
     ie_provider := provider;
     ie_created_at := None;
     ie_is_bound := false;
     ie_disabled := None;
     ie_source_info := None;
     ie_link := link base_url provider |}.

(** The body of [for provider in providers]: what one provider appends. *)
Definition provider_entries (base_url : string)
    (data_source_integrates : list DataSourceBinding) (provider : string)
    : list IntegrateEntry :=
  let existing_integrates :=
    filter (λ item, bind_provider item = provider) data_source_integrates in
  if filter_object_truthy existing_integrates
  then map (bound_entry base_url provider) existing_integrates
  else [placeholder_entry base_url provider].

Definition query_integrates (s : Store) (tenant : string) : list DataSourceBinding :=
  filter (λ b, bind_tenant_id b = tenant ∧ bind_disabled b = false) (bindings s).

Definition get (tenant url_root : string) : M (list IntegrateEntry) :=
  λ w,
    let data_source_integrates := query_integrates (db w) tenant in
    let base_url := rstrip_slash url_root in
    let integrate_data :=
      foldl (λ acc provider,
               acc ++ provider_entries base_url data_source_integrates provider)
            [] providers in
    (set_session w data_source_integrates, inr integrate_data).

(** [filter_by(id=binding_id).first()]: the first row with that id, with
    its position. *)
Fixpoint first_by_id (binding_id : string) (rows : list DataSourceBinding)
    : option (nat * DataSourceBinding) :=
  match rows with
  | [] => None
  | b :: rest =>
      if bool_decide (bind_id b = binding_id) then Some (O, b)
      else match first_by_id binding_id rest with
           | Some (i, b') => Some (S i, b')
           | None => None
           end
  end.

Definition set_disabled (b : DataSourceBinding) (d : bool) (now : Z)
    : DataSourceBinding :=
  {| bind_id := bind_id b; bind_tenant_id := bind_tenant_id b;
     bind_provider := bind_provider b; bind_access_token := bind_access_token b;
     bind_source_info := bind_source_info b;
     bind_disabled := d;
     bind_created_at := bind_created_at b;
     bind_updated_at := now |}.

(** [db.session.add(obj); db.session.commit()] for the object loaded from
    row [i]. *)
Definition commit (i : nat) (obj : DataSourceBinding) : M unit :=
  λ w,
    let s := db w in
    (set_session
       (set_db w {| bindings := <[i := obj]> (bindings s);
                    datasets := datasets s; documents := documents s |})
       [obj],
     inr tt).

Definition load (binding_id : string) : M (option (nat * DataSourceBinding)) :=
  λ w,
    match first_by_id binding_id (bindings (db w)) with
    | Some (i, b) => (set_session w [b], inr (Some (i, b)))
    | None => (w, inr None)
    end.

Definition success : string := "success".

(** [tenant] is [current_user.current_tenant_id]; [now] is what
    [datetime.datetime.utcnow()] reads. *)
Definition patch (tenant : string) (now : Z) (binding_id action : string)
    : M string :=
  found ← load binding_id;
  match found with
  | None => raise (NotFound "Data source binding not found.")
  | Some (i, data_source_binding) =>
      (* enable binding *)
      b1 ← (if bool_decide (action = "enable") then
              if bind_disabled data_source_binding then
                let b' := set_disabled data_source_binding false now in
                commit i b';; ret b'
              else raise (ValueError "Data source is not disabled.")
            else ret data_source_binding);
      (* disable binding *)
      (if bool_decide (action = "disable") then
         if negb (bind_disabled b1) then
           let b' := set_disabled b1 true now in
           commit i b';; ret tt
         else raise (ValueError "Data source is disabled.")
       else ret tt);;
      ret success
  end.

End DataSourceApi.

(** ** Services the controllers call *)

Module DatasetService.

(** Modelled from the spec: [DatasetService.get_dataset] lives in
    [services/dataset_service.py].  The spec has the dataset fetched by its
    identifier, absent when no dataset has it. *)
Definition get_dataset (s : Store) (dataset_id : string) : option Dataset :=
  head (filter (λ d, ds_id d = dataset_id) (datasets s)).

End DatasetService.

Module DocumentService.

(** Modelled from the spec: [DocumentService.get_document_by_dataset_id]
    lives in [services/dataset_service.py].  The spec has it enumerate all
    documents of the dataset, regardless of enabled state. *)
Definition get_document_by_dataset_id (s : Store) (dataset_id : string)
    : list Document :=
  filter (λ d, doc_dataset_id d = dataset_id) (documents s).

(** Modelled from the spec: [DocumentService.get_document] lives in
    [services/dataset_service.py].  The spec has the document looked up by
    its identifier, scoped to the dataset. *)
Definition get_document (s : Store) (dataset_id document_id : string)
    : option Document :=
  head (filter (λ d, doc_id d = document_id ∧ doc_dataset_id d = dataset_id)
               (documents s)).

End DocumentService.

(** ** DataSourceNotionListApi *)

Module DataSourceNotionListApi.

Record PreImportInfo := {
  pi_workspace_name : pyval;
  pi_workspace_icon : pyval;
  pi_workspace_id : pyval;
  pi_pages : list page
}.

Definition notion_import : string := "notion_import".

(** Truth value of [dataset_id]: [None] and the empty string are false. *)
Definition truthy_id (dataset_id : option string) : option string :=
  match dataset_id with
  | Some "" => None
  | other => other
  end.

Definition query_documents (s : Store) (tenant dataset_id : string)
    : list Document :=
  filter (λ d, doc_dataset_id d = dataset_id ∧ doc_tenant_id d = tenant
               ∧ doc_data_source_type d = Some notion_import
               ∧ doc_enabled d = true)
         (documents s).

(** [for document in documents: ... exist_page_ids.append(...)] *)
Fixpoint collect_page_ids (docs : list Document) (exist_page_ids : list pyval)
    : result (list pyval) :=
  match docs with
  | [] => inr exist_page_ids
  | document :: rest =>
      match doc_data_source_info document with
      | None => inl JSONDecodeError
      | Some data_source_info =>
          match data_source_info !! "notion_page_id" with
          | None => inl (KeyError "notion_page_id")
          | Some pid => collect_page_ids rest (exist_page_ids ++ [pid])
          end
      end
  end.

(** Lines 161-179: the ids of the pages already imported into the dataset. *)
Definition exist_page_ids (s : Store) (tenant : string)
    (dataset_id : option string) : result (list pyval) :=
  match truthy_id dataset_id with
  | None => inr []
  | Some dataset_id =>
      match DatasetService.get_dataset s dataset_id with
      | None => inl (NotFound "Dataset not found.")
      | Some dataset =>
          if bool_decide (ds_data_source_type dataset ≠ Some notion_import)
          then inl (ValueError "Dataset is not notion type.")
          else collect_page_ids (query_documents s tenant dataset_id) []
      end
  end.

Definition query_bindings (s : Store) (tenant : string) : list DataSourceBinding :=
  filter (λ b, bind_tenant_id b = tenant ∧ bind_provider b = "notion"
               ∧ bind_disabled b = false)
         (bindings s).

(** [page['is_bound'] = ...] *)
Definition set_is_bound (p : page) (pid : pyval) (imported : list pyval) : page :=
  <["is_bound" := PBool (py_in pid imported)]> p.

(** [for page in pages]: the page dicts are written in place, so the list
    returned is what [pages] holds afterwards, also when a page without
    ['page_id'] stops the loop. *)
Fixpoint annotate_pages (imported : list pyval) (ps : list page)
    : list page * option error :=
  match ps with
  | [] => ([], None)
  | p :: rest =>
      match p !! "page_id" with
      | None => (p :: rest, Some (KeyError "page_id"))
      | Some pid =>
          let '(rest', e) := annotate_pages imported rest in
          (set_is_bound p pid imported :: rest', e)
      end
  end.

Definition with_pages (b : DataSourceBinding) (ps : list page)
    : DataSourceBinding :=
  let si := bind_source_info b in
  {| bind_id := bind_id b; bind_tenant_id := bind_tenant_id b;
     bind_provider := bind_provider b; bind_access_token := bind_access_token b;
     bind_source_info :=
       {| workspace_name := workspace_name si;
          workspace_icon := workspace_icon si;
          workspace_id := workspace_id si;
          pages := Some ps |};
     bind_disabled := bind_disabled b;
     bind_created_at := bind_created_at b;
     bind_updated_at := bind_updated_at b |}.

(** The dict built at lines 200-205: the three keys are read in the order
    written, and ['pages'] is the binding's own list. *)
Definition pre_import_info (source_info : SourceInfo) (ps : list page)
    : result PreImportInfo :=
  match workspace_name source_info with
  | None => inl (KeyError "workspace_name")
  | Some name =>
      match workspace_icon source_info with
      | None => inl (KeyError "workspace_icon")
      | Some icon =>
          match workspace_id source_info with
          | None => inl (KeyError "workspace_id")
          | Some wid =>
              inr {| pi_workspace_name := name;
                     pi_workspace_icon := icon;
                     pi_workspace_id := wid;
                     pi_pages := ps |}
          end
      end
  end.

(** [for data_source_binding in data_source_bindings]: returns the loaded
    binding objects as the loop leaves them, and the list built or the
    exception raised. *)
Fixpoint annotate_bindings (imported : list pyval) (objs : list DataSourceBinding)
    (pre_import_info_list : list PreImportInfo)
    : list DataSourceBinding * result (list PreImportInfo) :=
  match objs with
  | [] => ([], inr pre_import_info_list)
  | data_source_binding :: rest =>
      let source_info := bind_source_info data_source_binding in
      match pages source_info with
      | None => (data_source_binding :: rest, inl (KeyError "pages"))
      | Some stored =>
          let '(ps, e) := annotate_pages imported stored in
          let obj := with_pages data_source_binding ps in
          match e with
          | Some err => (obj :: rest, inl err)
          | None =>
              match pre_import_info source_info ps with
              | inl err => (obj :: rest, inl err)
              | inr info =>
                  let '(rest', r) :=
                    annotate_bindings imported rest
                      (pre_import_info_list ++ [info]) in
                  (obj :: rest', r)
              end
          end
      end
  end.

(** [tenant] is [current_user.current_tenant_id]; [dataset_id] is
    [request.args.get('dataset_id', default=None, type=str)]. *)
Definition get (tenant : string) (dataset_id : option string)
    : M (list PreImportInfo) :=
  λ w,
    match exist_page_ids (db w) tenant dataset_id with
    | inl e => (w, inl e)
    | inr imported =>
        (* get all authorized pages *)
        let data_source_bindings := query_bindings (db w) tenant in
        match data_source_bindings with
        | [] => (set_session w [], inr [])
        | _ =>
            let '(objs, r) := annotate_bindings imported data_source_bindings [] in
            (set_session w objs, r)
        end
    end.

End DataSourceNotionListApi.

(** ** DataSourceNotionApi *)

Module DataSourceNotionApi.

(** [sep.join(parts)] *)
Fixpoint join (sep : string) (parts : list string) : string :=
  match parts with
  | [] => ""
  | x :: rest =>
      match rest with
      | [] => x
      | _ :: _ => x +:+ sep +:+ join sep rest
      end
  end.

(** The one-character string ["\n"]. *)
Definition newline : string := String "010"%char EmptyString.

(** The [and_(...)] filter of lines 220-227.  The JSON element
    [source_info['workspace_id']] is compared with the JSON text of the
    string [workspace_id]; an object without the key matches nothing. *)
Definition authorizes (tenant workspace_id_str : string) (b : DataSourceBinding)
    : Prop :=
  bind_tenant_id b = tenant ∧ bind_provider b = "notion"
  ∧ bind_disabled b = false
  ∧ workspace_id (bind_source_info b) = Some (PStr workspace_id_str).

#[global] Instance authorizes_dec tenant workspace_id_str b :
  Decision (authorizes tenant workspace_id_str b).
Proof. unfold authorizes. apply _. Defined.

Definition query_binding (s : Store) (tenant workspace_id_str : string)
    : option DataSourceBinding :=
  head (filter (authorizes tenant workspace_id_str) (bindings s)).

(** [load] is [NotionLoader(...).load()] of [core/data_loader/loader/notion.py]
    taken as a parameter: from the access token, the workspace id, the page
    id and the page type it returns the [page_content] of the documents it
    loaded, or raises.  [tenant] is [current_user.current_tenant_id]. *)
Definition get (load : string → string → string → string → result (list string))
    (tenant workspace_id_str page_id page_type : string) : M string :=
  λ w,
    match query_binding (db w) tenant workspace_id_str with
    | None => raise (NotFound "Data source binding not found.") w
    | Some data_source_binding =>
        let w' := set_session w [data_source_binding] in
        match load (bind_access_token data_source_binding)
                   workspace_id_str page_id page_type with
        | inl e => (w', inl e)
        | inr text_docs => (w', inr (join newline text_docs))
        end
    end.

End DataSourceNotionApi.

(** ** The task runner *)

(** [document_indexing_sync_task.delay(dataset_id, document_id)]: the request
    is published to the runner's queue, or the publish raises.  Nothing is
    executed here. *)
Definition delay (r : SyncRequest) : M unit :=
  λ w,
    let calls := delay_calls w ++ [r] in
    if runner_accepts w r then
      ({| db := db w; session := session w; runner_accepts := runner_accepts w;
          delay_calls := calls; task_queue := task_queue w ++ [r] |}, inr tt)
    else
      ({| db := db w; session := session w; runner_accepts := runner_accepts w;
          delay_calls := calls; task_queue := task_queue w |}, inl DispatchFailure).

(** ** DataSourceNotionDatasetSyncApi *)

Module DataSourceNotionDatasetSyncApi.

(** [for document in documents: document_indexing_sync_task.delay(...)] *)
Fixpoint delay_each (dataset_id_str : string) (documents : list Document)
    : M unit :=
  match documents with
  | [] => mret tt
  | document :: rest =>
      delay (dataset_id_str, doc_id document);;
      delay_each dataset_id_str rest
  end.

Definition get (dataset_id : string) : M Z :=
  λ w,
    let dataset_id_str := dataset_id in
    match DatasetService.get_dataset (db w) dataset_id_str with
    | None => raise (NotFound "Dataset not found.") w
    | Some dataset =>
        let documents :=
          DocumentService.get_document_by_dataset_id (db w) dataset_id_str in
        (delay_each dataset_id_str documents;; mret 200) w
    end.

End DataSourceNotionDatasetSyncApi.

(** ** DataSourceNotionDocumentSyncApi *)

Module DataSourceNotionDocumentSyncApi.

Definition get (dataset_id document_id : string) : M Z :=
  λ w,
    let dataset_id_str := dataset_id in
    let document_id_str := document_id in
    match DatasetService.get_dataset (db w) dataset_id_str with
    | None => raise (NotFound "Dataset not found.") w
    | Some dataset =>
        match DocumentService.get_document (db w) dataset_id_str document_id_str with
        | None => raise (NotFound "Document not found.") w
        | Some document =>
            (delay (dataset_id_str, document_id_str);; mret 200) w
        end
    end.

End DataSourceNotionDocumentSyncApi.

(** ** A small tenant used to run the handlers *)

Module Scenario.

Definition p1 : page :=
  {[ "page_id" := PStr "p1"; "page_name" := PStr "Roadmap";
     "page_icon" := PNone; "parent_id" := PStr "root"; "type" := PStr "page" ]}.
Definition p2 : page :=
  {[ "page_id" := PStr "p2"; "page_name" := PStr "Notes";
     "page_icon" := PDict {[ "type" := Some "emoji"; "emoji" := Some "N" ]};
     "parent_id" := PStr "p1"; "type" := PStr "database" ]}.

Definition info_W : SourceInfo :=
  {| workspace_name := Some (PStr "W"); workspace_icon := Some PNone;
     workspace_id := Some (PStr "w-1"); pages := Some [p1; p2] |}.

Definition binding (id tenant : string) (disabled : bool) : DataSourceBinding :=
  {| bind_id := id; bind_tenant_id := tenant; bind_provider := "notion";
     bind_access_token := "secret"; bind_source_info := info_W;
     bind_disabled := disabled; bind_created_at := 10; bind_updated_at := 10 |}.

Definition dataset_D : Dataset :=
  {| ds_id := "D"; ds_tenant_id := "T"; ds_data_source_type := Some "notion_import" |}.

Definition document (id page_id : string) (enabled : bool) : Document :=
  {| doc_id := id; doc_dataset_id := "D"; doc_tenant_id := "T";
     doc_data_source_type := Some "notion_import";
     doc_data_source_info := Some {[ "notion_page_id" := PStr page_id ]};
     doc_enabled := enabled |}.

Definition world (s : Store) (accepts : SyncRequest → bool) : World :=
  {| db := s; session := []; runner_accepts := accepts;
     delay_calls := []; task_queue := [] |}.

Definition always : SyncRequest → bool := λ _, true.

(** Tenant T: one active binding, dataset D with one enabled document
    imported from p1. *)
Definition store_T : Store :=
  {| bindings := [binding "b1" "T" false];
     datasets := [dataset_D];
     documents := [document "d1" "p1" true] |}.

(** A tenant that authorised nothing. *)
Definition store_empty : Store :=
  {| bindings := []; datasets := []; documents := [] |}.

(** Two tenants: T owns the disabled binding b1, T2 the active binding b2. *)
Definition store_two : Store :=
  {| bindings := [binding "b1" "T" true; binding "b2" "T2" false];
     datasets := [dataset_D];
     documents := [] |}.

(** Dataset D with three documents, the second one disabled. *)
Definition store_docs : Store :=
  {| bindings := [];
     datasets := [dataset_D];
     documents := [document "d1" "p1" true; document "d2" "p2" false;
                   document "d3" "p3" true] |}.

End Scenario.

(** ** Vocabulary of the properties *)

(** The world [patch] leaves after a committed transition of row [i]. *)
Definition committed (w : World) (i : nat) (obj : DataSourceBinding) : World :=
  {| db := {| bindings := <[i := obj]> (bindings (db w));
              datasets := datasets (db w); documents := documents (db w) |};
     session := [obj];
     runner_accepts := runner_accepts w;
     delay_calls := delay_calls w;
     task_queue := task_queue w |}.

Definition not_found_binding : error := NotFound "Data source binding not found.".
Definition not_disabled : error := ValueError "Data source is not disabled.".
Definition already_disabled : error := ValueError "Data source is disabled.".
Definition dataset_not_found : error := NotFound "Dataset not found.".
Definition not_notion_type : error := ValueError "Dataset is not notion type.".
Definition document_not_found : error := NotFound "Document not found.".

(** Errors of the two loops: a malformed document or page, never a missing
    dataset or a wrong source type. *)
Definition malformed (e : error) : Prop :=
  match e with
  | KeyError _ | JSONDecodeError => True
  | _ => False
  end.

Definition has_page_id (p : page) : Prop := is_Some (p !! "page_id").

(** A page after the loop body ran on it. *)
Definition annotated (imported : list pyval) (p : page) : page :=
  match p !! "page_id" with
  | Some pid => DataSourceNotionListApi.set_is_bound p pid imported
  | None => p
  end.

(** A binding whose [source_info] has the four keys the listing reads, and
    whose pages all have a ['page_id']. *)
Definition complete (b : DataSourceBinding) : Prop :=
  let si := bind_source_info b in
  is_Some (workspace_name si) ∧ is_Some (workspace_icon si)
  ∧ is_Some (workspace_id si)
  ∧ ∃ ps, pages si = Some ps ∧ Forall has_page_id ps.

(** The view of a binding: its workspace and its pages, annotated. *)
Definition view_of (imported : list pyval) (b : DataSourceBinding)
    (v : DataSourceNotionListApi.PreImportInfo) : Prop :=
  let si := bind_source_info b in
  workspace_name si = Some (DataSourceNotionListApi.pi_workspace_name v)
  ∧ workspace_icon si = Some (DataSourceNotionListApi.pi_workspace_icon v)
  ∧ workspace_id si = Some (DataSourceNotionListApi.pi_workspace_id v)
  ∧ ∃ ps, pages si = Some ps
          ∧ DataSourceNotionListApi.pi_pages v = annotated imported <$> ps.

(** The rows the listing selects, written out: the caller's notion
    bindings that are not disabled. *)
Definition active_notion (tenant : string) (s : Store) : list DataSourceBinding :=
  filter (λ b, bind_tenant_id b = tenant ∧ bind_provider b = "notion"
               ∧ bind_disabled b = false)
         (bindings s).

(** Tenant T2 lists pages against dataset D, which tenant T owns together
    with its document. *)
Definition store_cross : Store :=
  {| bindings := [Scenario.binding "b2" "T2" false];
     datasets := [Scenario.dataset_D];
     documents := [Scenario.document "d1" "p1" true] |}.

(** An active binding of T whose [source_info] has no ['workspace_icon']. *)
Definition binding_no_icon : DataSourceBinding :=
  {| bind_id := "b2"; bind_tenant_id := "T"; bind_provider := "notion";
     bind_access_token := "secret";
     bind_source_info :=
       {| workspace_name := Some (PStr "V"); workspace_icon := None;
          workspace_id := Some (PStr "w-2"); pages := Some [Scenario.p1] |};
     bind_disabled := false; bind_created_at := 10; bind_updated_at := 10 |}.

(** A disabled binding of T with a page that has no ['page_id']. *)
Definition binding_bad_page : DataSourceBinding :=
  {| bind_id := "b3"; bind_tenant_id := "T"; bind_provider := "notion";
     bind_access_token := "secret";
     bind_source_info :=
       {| workspace_name := Some (PStr "U"); workspace_icon := Some PNone;
          workspace_id := Some (PStr "w-3"); pages := Some [∅] |};
     bind_disabled := true; bind_created_at := 10; bind_updated_at := 10 |}.

(** An active binding of tenant T2 whose [source_info] has no ['pages']. *)
Definition binding_no_pages : DataSourceBinding :=
  {| bind_id := "b4"; bind_tenant_id := "T2"; bind_provider := "notion";
     bind_access_token := "secret";
     bind_source_info :=
       {| workspace_name := Some (PStr "X"); workspace_icon := Some PNone;
          workspace_id := Some (PStr "w-4"); pages := None |};
     bind_disabled := false; bind_created_at := 10; bind_updated_at := 10 |}.

(** Tenant T: one readable active binding, beside rows the listing must
    not read. *)
Definition store_skips : Store :=
  {| bindings := [Scenario.binding "b1" "T" false; binding_bad_page;
                  binding_no_pages];
     datasets := []; documents := [] |}.

(** Tenant T: a readable active binding followed by one without icon. *)
Definition store_ragged : Store :=
  {| bindings := [Scenario.binding "b1" "T" false; binding_no_icon];
     datasets := []; documents := [] |}.

(** The world after [delay] was called on [calls], of which the runner took
    [queued]. *)
Definition dispatched (w : World) (calls queued : list SyncRequest) : World :=
  {| db := db w; session := session w; runner_accepts := runner_accepts w;
     delay_calls := delay_calls w ++ calls;
     task_queue := task_queue w ++ queued |}.

Definition requests (dataset_id : string) (docs : list Document)
    : list SyncRequest :=
  (λ d, (dataset_id, doc_id d)) <$> docs.

(** A runner that rejects the requests for one document. *)
Definition rejects (document_id : string) : SyncRequest → bool :=
  λ r, negb (bool_decide (r.2 = document_id)).

(** [n] times the character ['/']. *)
Definition slashes (n : nat) : string := Nat.iter n (String "/"%char) "".

(** The rows one tenant can see. *)
Definition rows_of (tenant : string) (s : Store) : list DataSourceBinding :=
  filter (λ b, bind_tenant_id b = tenant) (bindings s).

(** Tenant T with two active bindings. *)
Definition store_pair : Store :=
  {| bindings := [Scenario.binding "b1" "T" false; Scenario.binding "b2" "T" false];
     datasets := [Scenario.dataset_D];
     documents := [] |}.

(** What the listing reads from a document: the page it was imported from. *)
Definition imported_from (doc : Document) (x : pyval) : Prop :=
  ∃ info, doc_data_source_info doc = Some info
          ∧ info !! "notion_page_id" = Some x.


(** * Properties *)

(** ** Running handlers *)

Lemma bind_run {A B} (m : M A) (k : A → M B) (w : World) :
  (m ≫= k) w = match m w with
               | (w', inl e) => (w', inl e)
               | (w', inr a) => k a w'
               end.
Proof. reflexivity. Qed.

Lemma first_by_id_spec binding_id rows i b :
  DataSourceApi.first_by_id binding_id rows = Some (i, b) →
  rows !! i = Some b ∧ bind_id b = binding_id.
Proof.
  revert i. induction rows as [|r rows IH]; intros i; simpl; [done|].
  case_bool_decide as Hid.
  - intros [= <- <-]. done.
  - destruct (DataSourceApi.first_by_id binding_id rows) as [[j b']|] eqn:E; [|done].
    intros [= <- <-]. simpl. by apply IH.
Qed.


Lemma patch_missing w tenant now binding_id action :
  DataSourceApi.first_by_id binding_id (bindings (db w)) = None →
  DataSourceApi.patch tenant now binding_id action w = (w, inl not_found_binding).
Proof.
  intros Hnone. unfold DataSourceApi.patch. rewrite bind_run.
  unfold DataSourceApi.load. by rewrite Hnone.
Qed.

Lemma patch_found w tenant now binding_id action i b :
  DataSourceApi.first_by_id binding_id (bindings (db w)) = Some (i, b) →
  DataSourceApi.patch tenant now binding_id action w =
    if bool_decide (action = "enable") then
      if bind_disabled b
      then (committed w i (DataSourceApi.set_disabled b false now),
            inr DataSourceApi.success)
      else (set_session w [b], inl not_disabled)
    else if bool_decide (action = "disable") then
      if bind_disabled b
      then (set_session w [b], inl already_disabled)
      else (committed w i (DataSourceApi.set_disabled b true now),
            inr DataSourceApi.success)
    else (set_session w [b], inr DataSourceApi.success).
Proof.
  intros Hsome. unfold DataSourceApi.patch. rewrite bind_run.
  unfold DataSourceApi.load. rewrite Hsome.
  destruct (decide (action = "enable")) as [->|He].
  - simpl. destruct (bind_disabled b) eqn:Hd; [|done].
    rewrite !bind_run. simpl. by rewrite bind_run.
  - rewrite !(bool_decide_eq_false_2 (action = "enable")) by done.
    destruct (decide (action = "disable")) as [->|Hdis].
    + simpl. rewrite !bind_run. simpl.
      destruct (bind_disabled b) eqn:Hd; simpl; [done|].
      by rewrite !bind_run.
    + by rewrite !(bool_decide_eq_false_2 (action = "disable")) by done.
Qed.

(** ** Lifecycle transitions *)

(** What a transition writes: the flag and the timestamp, nothing else. *)
Lemma set_disabled_fields b d now :
  let b' := DataSourceApi.set_disabled b d now in
  bind_disabled b' = d ∧ bind_updated_at b' = now ∧
  bind_id b' = bind_id b ∧ bind_tenant_id b' = bind_tenant_id b ∧
  bind_provider b' = bind_provider b ∧
  bind_access_token b' = bind_access_token b ∧
  bind_source_info b' = bind_source_info b ∧
  bind_created_at b' = bind_created_at b.
Proof. done. Qed.



(** C10. For a binding the id resolves to and an action that is neither
    ['enable'] nor ['disable'], the handler returns success, raises nothing
    and leaves every committed row as it was. *)
Theorem patch_other_action (w : World) (tenant : string) (now : Z)
    (binding_id action : string) (i : nat) (b : DataSourceBinding) :
  DataSourceApi.first_by_id binding_id (bindings (db w)) = Some (i, b) →
  action ≠ "enable" → action ≠ "disable" →
  (DataSourceApi.patch tenant now binding_id action w).2 = inr DataSourceApi.success
  ∧ db (DataSourceApi.patch tenant now binding_id action w).1 = db w
  ∧ bindings (db (DataSourceApi.patch tenant now binding_id action w).1) !! i = Some b.
Proof.
  intros Hsome He Hd. rewrite (patch_found _ _ _ _ _ _ _ Hsome).
  rewrite (bool_decide_eq_false_2 _ He), (bool_decide_eq_false_2 _ Hd). simpl.
  split; [done|]. split; [done|]. by apply first_by_id_spec in Hsome as [? _].
Qed.

Lemma patch_other_action_witness :
  let w := Scenario.world Scenario.store_two Scenario.always in
  (DataSourceApi.patch "T" 99 "b2" "toggle" w).2 = inr DataSourceApi.success
  ∧ db (DataSourceApi.patch "T" 99 "b2" "toggle" w).1 = db w
  ∧ bindings (db (DataSourceApi.patch "T" 99 "b2" "toggle" w).1) !! 1%nat
    = Some (Scenario.binding "b2" "T2" false).
Proof.
  intros w.
  apply (patch_other_action w "T" 99 "b2" "toggle" 1%nat
           (Scenario.binding "b2" "T2" false)); [reflexivity | done | done].
Defined.

(** C5 (the code at the failing input).  Tenant T disables binding b2, which
    belongs to tenant T2: the handler looks the binding up by id alone, so
    the transition is committed instead of failing with NotFound. *)
Theorem patch_crosses_tenants :
  let w := Scenario.world Scenario.store_two Scenario.always in
  let b2 := Scenario.binding "b2" "T2" false in
  b2 ∈ bindings (db w) ∧ bind_tenant_id b2 ≠ "T" ∧
  (DataSourceApi.patch "T" 99 "b2" "disable" w).2 = inr DataSourceApi.success ∧
  bindings (db (DataSourceApi.patch "T" 99 "b2" "disable" w).1) !! 1%nat
    = Some (DataSourceApi.set_disabled b2 true 99).
Proof.
  intros w b2. split; [|split; [done|]].
  - subst w b2. simpl. right. left.
  - by rewrite (patch_found w "T" 99 "b2" "disable" 1%nat b2 eq_refl).
Qed.

(** The caller's tenant plays no part in a transition. *)
Lemma patch_ignores_tenant (w : World) (t1 t2 : string) (now : Z)
    (binding_id action : string) :
  DataSourceApi.patch t1 now binding_id action w
  = DataSourceApi.patch t2 now binding_id action w.
Proof. reflexivity. Qed.

(** ** The integration catalogue *)

(** What [DataSourceApi.get] returns: one bound entry per active binding of
    the provider; the placeholder branch is never taken. *)
Lemma integrates_entries (w : World) (tenant url_root : string) :
  (DataSourceApi.get tenant url_root w).2 =
    inr (map (DataSourceApi.bound_entry (DataSourceApi.rstrip_slash url_root) "notion")
             (filter (λ b, bind_provider b = "notion")
                     (DataSourceApi.query_integrates (db w) tenant))).
Proof. reflexivity. Qed.

(** With N active bindings of the provider the catalogue has N entries, all
    bound. *)
Lemma integrates_bound_count (w : World) (tenant url_root : string) :
  ∃ entries, (DataSourceApi.get tenant url_root w).2 = inr entries ∧
    length entries =
      length (filter (λ b, bind_provider b = "notion")
                     (DataSourceApi.query_integrates (db w) tenant)) ∧
    Forall (λ e, DataSourceApi.ie_is_bound e = true) entries.
Proof.
  eexists. split; [apply integrates_entries|]. split.
  - by rewrite length_map.
  - apply Forall_forall. intros e He. apply list_elem_of_fmap in He as (b & -> & _).
    done.
Qed.

Example link_of_root :
  DataSourceApi.link (DataSourceApi.rstrip_slash "http://localhost//") "notion"
  = "http://localhost/console/api/oauth/data-source/notion".
Proof. reflexivity. Qed.

(** C2 (the code at the failing input).  A tenant without any binding gets
    an empty catalogue: no placeholder entry for the configured provider. *)
Theorem integrates_without_binding :
  let w := Scenario.world Scenario.store_empty Scenario.always in
  DataSourceApi.providers = ["notion"] ∧
  DataSourceApi.query_integrates (db w) "T" = [] ∧
  (DataSourceApi.get "T" "http://localhost/" w).2 = inr [].
Proof. done. Qed.

(** ** The importable-page listing *)

Section ListPages.
Import DataSourceNotionListApi.

Lemma annotated_lookup imported (p : page) pid :
  p !! "page_id" = Some pid →
  annotated imported p !! "is_bound" = Some (PBool (bool_decide (pid ∈ imported)))
  ∧ ∀ k, k ≠ "is_bound" → annotated imported p !! k = p !! k.
Proof.
  intros Hpid. unfold annotated, set_is_bound, py_in. rewrite Hpid. split.
  - by rewrite lookup_insert_eq.
  - intros k Hk. by rewrite lookup_insert_ne.
Qed.

Lemma annotate_pages_ok imported ps :
  Forall has_page_id ps →
  annotate_pages imported ps = (annotated imported <$> ps, None).
Proof.
  induction 1 as [|p ps [pid Hpid] _ IH]; simpl; [done|].
  rewrite Hpid, IH. unfold annotated. by rewrite Hpid.
Qed.

Lemma annotate_pages_inv imported ps ps' e :
  annotate_pages imported ps = (ps', e) →
  match e with
  | None => Forall has_page_id ps ∧ ps' = annotated imported <$> ps
  | Some err => err = KeyError "page_id" ∧ ¬ Forall has_page_id ps
  end.
Proof.
  revert ps' e. induction ps as [|p ps IH]; intros ps' e; simpl.
  - intros [= <- <-]. done.
  - destruct (p !! "page_id") as [pid|] eqn:Hpid.
    + destruct (annotate_pages imported ps) as [rest' e'] eqn:Hrest.
      intros [= <- <-]. specialize (IH _ _ eq_refl). destruct e' as [err|].
      * destruct IH as [-> Hbad]. split; [done|].
        intros Hall. apply Hbad. by inversion Hall.
      * destruct IH as [Hall ->]. split.
        -- constructor; [by eexists | done].
        -- f_equal. unfold annotated. by rewrite Hpid.
    + intros [= <- <-]. split; [done|]. intros Hall.
      inversion Hall as [|? ? [? Hsome] ?]. congruence.
Qed.

Lemma pre_import_info_inv si ps :
  match pre_import_info si ps with
  | inr v =>
      workspace_name si = Some (pi_workspace_name v)
      ∧ workspace_icon si = Some (pi_workspace_icon v)
      ∧ workspace_id si = Some (pi_workspace_id v)
      ∧ pi_pages v = ps
  | inl err =>
      (∃ k, err = KeyError k)
      ∧ ¬ (is_Some (workspace_name si) ∧ is_Some (workspace_icon si)
           ∧ is_Some (workspace_id si))
  end.
Proof.
  unfold pre_import_info.
  destruct (workspace_name si) as [name|];
    [|split; [by eexists | by intros ([? ?] & _)]].
  destruct (workspace_icon si) as [icon|];
    [|split; [by eexists | by intros (_ & [? ?] & _)]].
  destruct (workspace_id si) as [wid|];
    [|split; [by eexists | by intros (_ & _ & [? ?])]].
  done.
Qed.

(** What the loop over the bindings leaves: the views of the bindings when
    all of them are complete, and a [KeyError] otherwise. *)
Lemma annotate_bindings_inv imported objs acc objs' r :
  annotate_bindings imported objs acc = (objs', r) →
  match r with
  | inr views =>
      Forall complete objs
      ∧ ∃ new, views = acc ++ new ∧ Forall2 (view_of imported) objs new
  | inl err => (∃ k, err = KeyError k) ∧ ¬ Forall complete objs
  end.
Proof.
  revert acc objs' r. induction objs as [|b objs IH]; intros acc objs' r; simpl.
  - intros [= <- <-]. split; [done|]. exists []. split; [by rewrite app_nil_r|].
    constructor.
  - destruct (pages (bind_source_info b)) as [stored|] eqn:Hstored.
    2:{ intros [= <- <-]. split; [by eexists|]. intros Hall.
        inversion Hall as [|? ? (_ & _ & _ & ps & Hps & _) ?]. congruence. }
    destruct (annotate_pages imported stored) as [ps e] eqn:Hps.
    apply annotate_pages_inv in Hps. destruct e as [err|].
    { destruct Hps as [-> Hbad]. intros [= <- <-]. split; [by eexists|].
      intros Hall. inversion Hall as [|? ? (_ & _ & _ & ps' & Hps' & Hwf) ?].
      apply Hbad. congruence. }
    destruct Hps as [Hwf ->].
    pose proof (pre_import_info_inv (bind_source_info b)
                  (annotated imported <$> stored)) as Hinfo.
    destruct (pre_import_info (bind_source_info b) (annotated imported <$> stored))
      as [err|info].
    { destruct Hinfo as [Hk Hbad]. intros [= <- <-]. split; [done|].
      intros Hall. inversion Hall as [|? ? (? & ? & ? & _) ?]. by apply Hbad. }
    destruct Hinfo as (Hname & Hicon & Hid & Hpages).
    destruct (annotate_bindings imported objs (acc ++ [info]))
      as [rest' r'] eqn:Hrest.
    intros [= <- <-]. specialize (IH _ _ _ Hrest). destruct r' as [err|views].
    + destruct IH as [Hk Hbad]. split; [done|].
      intros Hall. apply Hbad. by inversion Hall.
    + destruct IH as [Hall (new & -> & Hnew)]. split.
      * constructor; [|done]. unfold complete. rewrite Hname, Hicon, Hid.
        repeat split; eauto.
      * exists (info :: new). split; [by rewrite <- app_assoc|].
        constructor; [|done]. unfold view_of. repeat split; eauto.
Qed.

(** When the loop returns, the views hold the page lists of the loaded
    objects themselves, and each object is its row but for the pages. *)
Lemma annotate_bindings_shares imported objs acc objs' views :
  annotate_bindings imported objs acc = (objs', inr views) →
  Forall2 (λ o b, ∃ ps, o = with_pages b ps) objs' objs
  ∧ ∃ new, views = acc ++ new
      ∧ (λ v, Some (pi_pages v)) <$> new
        = (λ o, pages (bind_source_info o)) <$> objs'.
Proof.
  revert acc objs' views.
  induction objs as [|b objs IH]; intros acc objs' views; simpl.
  - intros [= <- <-]. split; [constructor|]. exists []. by rewrite app_nil_r.
  - destruct (pages (bind_source_info b)) as [stored|]; [|done].
    destruct (annotate_pages imported stored) as [ps [err|]]; [done|].
    pose proof (pre_import_info_inv (bind_source_info b) ps) as Hinfo.
    destruct (pre_import_info (bind_source_info b) ps) as [err|info]; [done|].
    destruct Hinfo as (_ & _ & _ & Hpages).
    destruct (annotate_bindings imported objs (acc ++ [info]))
      as [rest' r'] eqn:Hrest.
    intros [= <- ->]. apply IH in Hrest as [Hobjs (new & -> & Hnew)].
    split; [constructor; [by eexists | done]|].
    exists (info :: new). split; [by rewrite <- app_assoc|].
    rewrite !fmap_cons. f_equal; [|exact Hnew]. simpl. by rewrite Hpages.
Qed.

Lemma collect_page_ids_elem docs acc ids :
  collect_page_ids docs acc = inr ids →
  ∀ x, x ∈ ids ↔
    x ∈ acc ∨ ∃ doc info, doc ∈ docs ∧ doc_data_source_info doc = Some info
                          ∧ info !! "notion_page_id" = Some x.
Proof.
  revert acc. induction docs as [|d docs IH]; intros acc; simpl.
  - intros [= <-] x. split; [by left|].
    intros [?|(doc & info & Hd & _)]; [done|]. by apply elem_of_nil in Hd.
  - destruct (doc_data_source_info d) as [info|] eqn:Hinfo; [|done].
    destruct (info !! "notion_page_id") as [pid|] eqn:Hpid; [|done].
    intros Hrun x. rewrite (IH _ Hrun x), elem_of_app, list_elem_of_singleton.
    split.
    + intros [[?| ->]|(doc & info' & Hd & ?)]; [by left| |].
      * right. exists d, info. split; [left|done].
      * right. exists doc, info'. split; [by right|done].
    + intros [?|(doc & info' & Hd & Hi & Hx)]; [by left; left|].
      apply elem_of_cons in Hd as [-> | Hd].
      * left; right. congruence.
      * right. by exists doc, info'.
Qed.

End ListPages.

(** The step that builds the imported-id list: what it holds when it
    returns. *)
Lemma exist_page_ids_spec (s : Store) (tenant : string)
    (dataset_id : option string) (imported : list pyval) :
  DataSourceNotionListApi.exist_page_ids s tenant dataset_id = inr imported →
  (DataSourceNotionListApi.truthy_id dataset_id = None → imported = [])
  ∧ (∀ d, DataSourceNotionListApi.truthy_id dataset_id = Some d →
       ∀ x, x ∈ imported ↔
         ∃ doc info, doc ∈ documents s
           ∧ doc_dataset_id doc = d ∧ doc_tenant_id doc = tenant
           ∧ doc_data_source_type doc = Some "notion_import"
           ∧ doc_enabled doc = true
           ∧ doc_data_source_info doc = Some info
           ∧ info !! "notion_page_id" = Some x).
Proof.
  unfold DataSourceNotionListApi.exist_page_ids.
  destruct (DataSourceNotionListApi.truthy_id dataset_id) as [d|] eqn:Hd.
  - destruct (DatasetService.get_dataset s d) as [ds|]; [|done].
    case_bool_decide; [done|]. intros Hrun. split; [done|].
    intros d' [= <-] x.
    rewrite (collect_page_ids_elem _ _ _ Hrun x). split.
    + intros [Hx|(doc & info & Hdoc & Hinfo & Hkey)]; [by apply elem_of_nil in Hx|].
      apply list_elem_of_filter in Hdoc as [(? & ? & ? & ?) ?].
      exists doc, info. done.
    + intros (doc & info & Hdoc & ? & ? & ? & ? & Hinfo & Hkey).
      right. exists doc, info. split; [|done].
      apply list_elem_of_filter. done.
  - intros [= <-]. done.
Qed.

(** What the listing returns once the imported ids are known: the views of
    the caller's active notion bindings when all of them are complete, a
    [KeyError] otherwise. *)
Lemma list_pages_run (w : World) (tenant : string) (dataset_id : option string)
    (imported : list pyval) :
  DataSourceNotionListApi.exist_page_ids (db w) tenant dataset_id = inr imported →
  let bs := active_notion tenant (db w) in
  match (DataSourceNotionListApi.get tenant dataset_id w).2 with
  | inr views => Forall complete bs ∧ Forall2 (view_of imported) bs views
  | inl err => (∃ k, err = KeyError k) ∧ ¬ Forall complete bs
  end.
Proof.
  intros Hids bs. unfold DataSourceNotionListApi.get. rewrite Hids.
  change (DataSourceNotionListApi.query_bindings (db w) tenant) with bs.
  destruct bs as [|b0 bs0] eqn:Hbs; [simpl; split; constructor|].
  destruct (DataSourceNotionListApi.annotate_bindings imported (b0 :: bs0) [])
    as [objs r] eqn:Hrun.
  apply annotate_bindings_inv in Hrun. simpl. destruct r as [err|views]; [done|].
  by destruct Hrun as [Hall (new & -> & Hnew)].
Qed.

(** C1 (amended).  When the listing returns, it returns one view per
    binding among the caller's notion bindings that are not disabled, in the
    store's order, with the binding's workspace name, icon and id; each view
    has the binding's pages in their order, and a page carries
    [is_bound = true] exactly when its [page_id] is among the imported ids,
    every other attribute being the stored one.  The imported ids are those
    of the enabled documents of the dataset that belong to the calling
    tenant and are of type [notion_import]; there are none when no dataset
    id, or an empty one, is supplied. *)
Theorem list_pages_annotation (w : World) (tenant : string)
    (dataset_id : option string)
    (views : list DataSourceNotionListApi.PreImportInfo) :
  let bs :=
    filter (λ b, bind_tenant_id b = tenant ∧ bind_provider b = "notion"
                 ∧ bind_disabled b = false)
           (bindings (db w)) in
  (DataSourceNotionListApi.get tenant dataset_id w).2 = inr views →
  ∃ imported : list pyval,
    (dataset_id = None ∨ dataset_id = Some "" → imported = [])
    ∧ (∀ d, dataset_id = Some d → d ≠ "" →
         ∀ x, x ∈ imported ↔
           ∃ doc info, doc ∈ documents (db w)
             ∧ doc_dataset_id doc = d ∧ doc_tenant_id doc = tenant
             ∧ doc_data_source_type doc = Some "notion_import"
             ∧ doc_enabled doc = true
             ∧ doc_data_source_info doc = Some info
             ∧ info !! "notion_page_id" = Some x)
    ∧ length views = length bs
    ∧ (∀ i b, bs !! i = Some b →
         ∃ v ps, views !! i = Some v
           ∧ workspace_name (bind_source_info b)
               = Some (DataSourceNotionListApi.pi_workspace_name v)
           ∧ workspace_icon (bind_source_info b)
               = Some (DataSourceNotionListApi.pi_workspace_icon v)
           ∧ workspace_id (bind_source_info b)
               = Some (DataSourceNotionListApi.pi_workspace_id v)
           ∧ pages (bind_source_info b) = Some ps
           ∧ length (DataSourceNotionListApi.pi_pages v) = length ps
           ∧ ∀ j p, ps !! j = Some p →
               ∃ q pid, DataSourceNotionListApi.pi_pages v !! j = Some q
                 ∧ p !! "page_id" = Some pid
                 ∧ q !! "is_bound" = Some (PBool (bool_decide (pid ∈ imported)))
                 ∧ ∀ k, k ≠ "is_bound" → q !! k = p !! k).
Proof.
  intros bs Hrun.
  destruct (DataSourceNotionListApi.exist_page_ids (db w) tenant dataset_id)
    as [e|imported] eqn:Hids.
  { unfold DataSourceNotionListApi.get in Hrun. by rewrite Hids in Hrun. }
  pose proof (list_pages_run w tenant dataset_id imported Hids) as Hinv.
  simpl in Hinv. rewrite Hrun in Hinv. destruct Hinv as [Hall Hviews].
  change (active_notion tenant (db w)) with bs in Hall, Hviews.
  exists imported. split; [|split; [|split]].
  - intros [-> | ->]; by apply (exist_page_ids_spec _ _ _ _ Hids).
  - intros d -> Hd. apply (exist_page_ids_spec _ _ _ _ Hids). by destruct d.
  - symmetry. by eapply Forall2_length.
  - intros i b Hb.
    destruct (Forall2_lookup_l _ _ _ _ _ Hviews Hb)
      as (v & Hv & Hname & Hicon & Hid & ps & Hps & Hpages).
    exists v, ps. split; [done|]. split; [done|]. split; [done|].
    split; [done|]. split; [done|]. split; [by rewrite Hpages, length_fmap|].
    intros j p Hp.
    pose proof (Forall_lookup_1 _ _ _ _ Hall Hb) as (_ & _ & _ & ps' & Hps' & Hwf).
    assert (ps' = ps) as -> by congruence.
    destruct (Forall_lookup_1 _ _ _ _ Hwf Hp) as [pid Hpid].
    exists (annotated imported p), pid.
    split; [by rewrite Hpages, list_lookup_fmap, Hp|]. split; [done|].
    by apply annotated_lookup.
Qed.

Lemma list_pages_annotation_witness :
  let w := Scenario.world Scenario.store_T Scenario.always in
  ∃ views (imported : list pyval),
    (DataSourceNotionListApi.get "T" (Some "D") w).2 = inr views
    ∧ PStr "p1" ∈ imported ∧ length views = 1%nat.
Proof.
  intros w. eexists.
  destruct (list_pages_annotation w "T" (Some "D") _ eq_refl)
    as (imported & _ & Hiff & Hlen & _).
  exists imported. split; [reflexivity|]. split; [|exact Hlen].
  apply (Hiff "D" eq_refl); [done|].
  exists (Scenario.document "d1" "p1" true), {[ "notion_page_id" := PStr "p1" ]}.
  split; [left|]. repeat split; reflexivity.
Defined.

(** C1 (the claim fails).  Tenant T2 lists its pages against dataset D,
    whose enabled document d1 was imported from page p1 but belongs to
    tenant T: p1 comes back with [is_bound = false]. *)
Lemma list_pages_other_tenants_document :
  let w := Scenario.world store_cross Scenario.always in
  let d1 := Scenario.document "d1" "p1" true in
  d1 ∈ documents (db w)
  ∧ doc_dataset_id d1 = "D" ∧ doc_enabled d1 = true
  ∧ imported_from d1 (PStr "p1")
  ∧ Scenario.p1 !! "page_id" = Some (PStr "p1")
  ∧ (DataSourceNotionListApi.get "T2" (Some "D") w).2 =
    inr [ {| DataSourceNotionListApi.pi_workspace_name := PStr "W";
             DataSourceNotionListApi.pi_workspace_icon := PNone;
             DataSourceNotionListApi.pi_workspace_id := PStr "w-1";
             DataSourceNotionListApi.pi_pages :=
               [ <["is_bound" := PBool false]> Scenario.p1;
                 <["is_bound" := PBool false]> Scenario.p2 ] |} ].
Proof.
  intros w d1. split; [left|]. split; [done|]. split; [done|].
  split; [by eexists|]. split; reflexivity.
Qed.

(** The scenario of the spec: one binding with pages p1 and p2, one enabled
    document imported from p1. *)
Example list_pages_scenario :
  (DataSourceNotionListApi.get "T" (Some "D")
     (Scenario.world Scenario.store_T Scenario.always)).2 =
  inr [ {| DataSourceNotionListApi.pi_workspace_name := PStr "W";
           DataSourceNotionListApi.pi_workspace_icon := PNone;
           DataSourceNotionListApi.pi_workspace_id := PStr "w-1";
           DataSourceNotionListApi.pi_pages :=
             [ <["is_bound" := PBool true]> Scenario.p1;
               <["is_bound" := PBool false]> Scenario.p2 ] |} ].
Proof. reflexivity. Qed.

(** C3 (amended).  The listing writes no row: the committed store, every
    binding's [source_info] and page sequence with it, is the same before
    and after.  The annotation is made in place on the binding objects the
    session loaded, and the views returned hold those objects' page lists:
    each loaded object is its row with the page list as the loop left it. *)
Theorem list_pages_frame (w : World) (tenant : string)
    (dataset_id : option string) :
  let out := DataSourceNotionListApi.get tenant dataset_id w in
  db out.1 = db w
  ∧ ∀ views, out.2 = inr views →
      Forall2 (λ o b, ∃ ps, o = DataSourceNotionListApi.with_pages b ps)
              (session out.1)
              (DataSourceNotionListApi.query_bindings (db w) tenant)
      ∧ (λ v, Some (DataSourceNotionListApi.pi_pages v)) <$> views
        = (λ o, pages (bind_source_info o)) <$> session out.1.
Proof.
  unfold DataSourceNotionListApi.get.
  destruct (DataSourceNotionListApi.exist_page_ids (db w) tenant dataset_id)
    as [e|imported]; [done|].
  destruct (DataSourceNotionListApi.query_bindings (db w) tenant)
    as [|b0 bs0] eqn:Hbs.
  - simpl. split; [done|]. intros views [= <-]. split; [constructor | done].
  - destruct (DataSourceNotionListApi.annotate_bindings imported (b0 :: bs0) [])
      as [objs r] eqn:Hrun.
    simpl. split; [done|]. intros views ->.
    apply annotate_bindings_shares in Hrun as [Hobjs (new & -> & Hnew)].
    split; done.
Qed.

(** C3 (the claim fails).  In the scenario of the spec the binding object
    the session loaded is not its row after the call: its page dicts carry
    [is_bound], which no stored page has. *)
Lemma list_pages_writes_loaded_binding :
  let w := Scenario.world Scenario.store_T Scenario.always in
  let out := DataSourceNotionListApi.get "T" (Some "D") w in
  DataSourceNotionListApi.query_bindings (db w) "T"
    = [Scenario.binding "b1" "T" false]
  ∧ session out.1 =
      [DataSourceNotionListApi.with_pages (Scenario.binding "b1" "T" false)
         [ <["is_bound" := PBool true]> Scenario.p1;
           <["is_bound" := PBool false]> Scenario.p2 ]]
  ∧ Scenario.p1 !! "is_bound" = None
  ∧ session out.1 ≠ DataSourceNotionListApi.query_bindings (db w) "T".
Proof.
  intros w out. split; [reflexivity|]. split; [reflexivity|].
  split; [reflexivity|].
  intros Heq.
  apply (f_equal (λ l : list DataSourceBinding,
           match l with
           | b :: _ =>
               match pages (bind_source_info b) with
               | Some (p :: _) => p !! "is_bound"
               | _ => None
               end
           | [] => None
           end)) in Heq.
  vm_compute in Heq. discriminate Heq.
Qed.

(** ** Failures of the listing *)

Lemma collect_page_ids_error docs acc e :
  DataSourceNotionListApi.collect_page_ids docs acc = inl e → malformed e.
Proof.
  revert acc. induction docs as [|d docs IH]; intros acc; simpl; [done|].
  destruct (doc_data_source_info d) as [info|]; [|by intros [= <-]].
  destruct (info !! "notion_page_id"); [apply IH | by intros [= <-]].
Qed.

Lemma annotate_pages_error imported ps ps' e :
  DataSourceNotionListApi.annotate_pages imported ps = (ps', Some e) → malformed e.
Proof.
  revert ps'. induction ps as [|p ps IH]; intros ps'; simpl; [done|].
  destruct (p !! "page_id"); [|by intros [= <- <-]].
  destruct (DataSourceNotionListApi.annotate_pages imported ps) as [rest' e'].
  intros [= <- ->]. by eapply IH.
Qed.

Lemma annotate_bindings_error imported objs acc objs' e :
  DataSourceNotionListApi.annotate_bindings imported objs acc = (objs', inl e) →
  malformed e.
Proof.
  intros Hrun. apply annotate_bindings_inv in Hrun as [[k ->] _]. done.
Qed.

(** C6 (amended).  With a non-empty [dataset_id] the listing fails with
    NotFound exactly when no dataset has that id, and with the
    unsupported-source-type error exactly when the dataset found is not of
    type [notion_import]; and when the imported-id step raised nothing and
    the tenant has no active notion binding, the result is the empty
    sequence.  An empty [dataset_id] is handled as an absent one. *)
Theorem list_pages_errors (w : World) (tenant d : string) :
  d ≠ "" →
  let out := (DataSourceNotionListApi.get tenant (Some d) w).2 in
  ((∃ msg, out = inl (NotFound msg)) ↔ DatasetService.get_dataset (db w) d = None)
  ∧ (DatasetService.get_dataset (db w) d = None → out = inl dataset_not_found)
  ∧ ((∃ msg, out = inl (ValueError msg)) ↔
       ∃ ds, DatasetService.get_dataset (db w) d = Some ds
             ∧ ds_data_source_type ds ≠ Some "notion_import")
  ∧ ((∃ ds, DatasetService.get_dataset (db w) d = Some ds
            ∧ ds_data_source_type ds ≠ Some "notion_import") →
       out = inl not_notion_type)
  ∧ (∀ dataset_id imported,
       DataSourceNotionListApi.exist_page_ids (db w) tenant dataset_id
         = inr imported →
       DataSourceNotionListApi.query_bindings (db w) tenant = [] →
       (DataSourceNotionListApi.get tenant dataset_id w).2 = inr [])
  ∧ DataSourceNotionListApi.get tenant (Some "") w
    = DataSourceNotionListApi.get tenant None w.
Proof.
  intros Hd out.
  enough (((∃ msg, out = inl (NotFound msg)) ↔
             DatasetService.get_dataset (db w) d = None)
          ∧ (DatasetService.get_dataset (db w) d = None →
               out = inl dataset_not_found)
          ∧ ((∃ msg, out = inl (ValueError msg)) ↔
               ∃ ds, DatasetService.get_dataset (db w) d = Some ds
                     ∧ ds_data_source_type ds ≠ Some "notion_import")
          ∧ ((∃ ds, DatasetService.get_dataset (db w) d = Some ds
                    ∧ ds_data_source_type ds ≠ Some "notion_import") →
               out = inl not_notion_type)
          ∧ (∀ dataset_id imported,
               DataSourceNotionListApi.exist_page_ids (db w) tenant dataset_id
                 = inr imported →
               DataSourceNotionListApi.query_bindings (db w) tenant = [] →
               (DataSourceNotionListApi.get tenant dataset_id w).2 = inr []))
    as (H1 & H2 & H3 & H4 & H5)
    by (split; [exact H1|]; split; [exact H2|]; split; [exact H3|];
        split; [exact H4|]; split; [exact H5 | reflexivity]).
  assert (Hrun : out =
    match DatasetService.get_dataset (db w) d with
    | None => inl dataset_not_found
    | Some ds =>
        if bool_decide (ds_data_source_type ds ≠ Some "notion_import")
        then inl not_notion_type
        else out
    end).
  { subst out. unfold DataSourceNotionListApi.get,
      DataSourceNotionListApi.exist_page_ids.
    replace (DataSourceNotionListApi.truthy_id (Some d)) with (Some d)
      by (by destruct d).
    destruct (DatasetService.get_dataset (db w) d) as [ds|]; [|done].
    unfold DataSourceNotionListApi.notion_import.
    destruct (decide (ds_data_source_type ds = Some "notion_import")) as [Hty|Hty].
    - by rewrite !bool_decide_eq_false_2 by (by intros ?).
    - by rewrite !bool_decide_eq_true_2 by done. }
  assert (Hrest : ∀ ds, DatasetService.get_dataset (db w) d = Some ds →
            ds_data_source_type ds = Some "notion_import" →
            ∀ e, out = inl e → malformed e).
  { intros ds Hds Hty e. subst out.
    unfold DataSourceNotionListApi.get, DataSourceNotionListApi.exist_page_ids.
    replace (DataSourceNotionListApi.truthy_id (Some d)) with (Some d)
      by (by destruct d).
    unfold DataSourceNotionListApi.notion_import.
    rewrite Hds, bool_decide_eq_false_2 by (by intros ?).
    destruct (DataSourceNotionListApi.collect_page_ids _ _) as [e'|imported] eqn:Hc.
    - intros [= <-]. by eapply collect_page_ids_error.
    - destruct (DataSourceNotionListApi.query_bindings (db w) tenant)
        as [|b0 bs0]; [done|].
      destruct (DataSourceNotionListApi.annotate_bindings imported (b0 :: bs0) [])
        as [objs r] eqn:Ha.
      simpl. intros ->. by eapply annotate_bindings_error. }
  clearbody out.
  destruct (DatasetService.get_dataset (db w) d) as [ds|] eqn:Hds.
  - destruct (decide (ds_data_source_type ds = Some "notion_import")) as [Hty|Hty].
    + split; [|split; [done|split; [|split]]].
      * split; [|done]. intros [msg ->].
        destruct (Hrest ds eq_refl Hty _ eq_refl).
      * split.
        -- intros [msg ->]. destruct (Hrest ds eq_refl Hty _ eq_refl).
        -- intros (ds' & [= <-] & Hne). done.
      * intros (ds' & [= <-] & Hne). done.
      * intros dataset_id imported Hids Hbs.
        unfold DataSourceNotionListApi.get. by rewrite Hids, Hbs.
    + rewrite bool_decide_eq_true_2 in Hrun by done.
      split; [|split; [done|split; [|split]]].
      * split; [|done]. intros [msg Hmsg]. rewrite Hmsg in Hrun. done.
      * split; [by exists ds | by eexists].
      * done.
      * intros dataset_id imported Hids Hbs.
        unfold DataSourceNotionListApi.get. by rewrite Hids, Hbs.
  - split; [|split; [done|split; [|split]]].
    + split; [done | by eexists].
    + split; [|by intros (? & ? & _)]. intros [msg Hmsg]. rewrite Hmsg in Hrun. done.
    + by intros (? & ? & _).
    + intros dataset_id imported Hids Hbs.
      unfold DataSourceNotionListApi.get. by rewrite Hids, Hbs.
Qed.

Lemma list_pages_errors_witness :
  (DataSourceNotionListApi.get "T" (Some "missing")
     (Scenario.world Scenario.store_T Scenario.always)).2
  = inl dataset_not_found.
Proof.
  destruct (list_pages_errors (Scenario.world Scenario.store_T Scenario.always)
              "T" "missing") as (_ & Hmissing & _); [done|].
  apply Hmissing. reflexivity.
Defined.

(** C6 (the claim fails).  An empty [dataset_id] names no dataset, yet the
    listing does not fail: the guard [if dataset_id:] skips the dataset
    lookup, and the pages come back with nothing imported. *)
Lemma list_pages_empty_dataset_id :
  let w := Scenario.world Scenario.store_T Scenario.always in
  DatasetService.get_dataset (db w) "" = None
  ∧ (DataSourceNotionListApi.get "T" (Some "") w).2 =
    inr [ {| DataSourceNotionListApi.pi_workspace_name := PStr "W";
             DataSourceNotionListApi.pi_workspace_icon := PNone;
             DataSourceNotionListApi.pi_workspace_id := PStr "w-1";
             DataSourceNotionListApi.pi_pages :=
               [ <["is_bound" := PBool false]> Scenario.p1;
                 <["is_bound" := PBool false]> Scenario.p2 ] |} ].
Proof. split; reflexivity. Qed.

(** ** Re-synchronisation *)

Lemma dispatched_nil w : dispatched w [] [] = w.
Proof. destruct w. unfold dispatched. simpl. by rewrite !app_nil_r. Qed.

Lemma dispatched_app w c1 q1 c2 q2 :
  dispatched (dispatched w c1 q1) c2 q2 = dispatched w (c1 ++ c2) (q1 ++ q2).
Proof. unfold dispatched. simpl. by rewrite !app_assoc. Qed.

Lemma delay_accepted w r :
  runner_accepts w r = true → delay r w = (dispatched w [r] [r], inr tt).
Proof. intros H. unfold delay. by rewrite H. Qed.

Lemma delay_rejected w r :
  runner_accepts w r = false →
  delay r w = (dispatched w [r] [], inl DispatchFailure).
Proof.
  intros H. unfold delay, dispatched. rewrite H. by rewrite app_nil_r.
Qed.

Lemma delay_each_all dataset_id docs w :
  (∀ d, d ∈ docs → runner_accepts w (dataset_id, doc_id d) = true) →
  DataSourceNotionDatasetSyncApi.delay_each dataset_id docs w =
    (dispatched w (requests dataset_id docs) (requests dataset_id docs), inr tt).
Proof.
  revert w. induction docs as [|d docs IH]; intros w Hall; simpl.
  - by rewrite dispatched_nil.
  - rewrite bind_run, delay_accepted by (apply Hall; left).
    rewrite IH by (intros d' Hd'; apply Hall; by right).
    by rewrite dispatched_app.
Qed.

Lemma delay_each_stops dataset_id pre d post w :
  (∀ x, x ∈ pre → runner_accepts w (dataset_id, doc_id x) = true) →
  runner_accepts w (dataset_id, doc_id d) = false →
  DataSourceNotionDatasetSyncApi.delay_each dataset_id (pre ++ d :: post) w =
    (dispatched w (requests dataset_id pre ++ [(dataset_id, doc_id d)])
                  (requests dataset_id pre),
     inl DispatchFailure).
Proof.
  revert w. induction pre as [|p pre IH]; intros w Hpre Hd; simpl.
  - by rewrite bind_run, delay_rejected.
  - rewrite bind_run, delay_accepted by (apply Hpre; left).
    rewrite IH; [by rewrite dispatched_app| |done].
    intros x Hx. apply Hpre. by right.
Qed.

(** C7. [syncDataset] fails with NotFound when no dataset has the id.
    Otherwise, with a runner that takes every request, it hands the runner
    one request per document of the dataset, enabled or not, each carrying
    that document's id, in the store's order, and returns 200 with the
    requests queued and none executed. *)
Theorem dataset_sync_enqueues (w : World) (dataset_id : string) :
  let out := DataSourceNotionDatasetSyncApi.get dataset_id w in
  let docs := filter (λ d, doc_dataset_id d = dataset_id) (documents (db w)) in
  (DatasetService.get_dataset (db w) dataset_id = None →
     out = (w, inl dataset_not_found))
  ∧ (is_Some (DatasetService.get_dataset (db w) dataset_id) →
     (∀ d, d ∈ docs → runner_accepts w (dataset_id, doc_id d) = true) →
     out.2 = inr 200
     ∧ db out.1 = db w
     ∧ task_queue out.1 = task_queue w ++ ((λ d, (dataset_id, doc_id d)) <$> docs)
     ∧ delay_calls out.1 = delay_calls w ++ ((λ d, (dataset_id, doc_id d)) <$> docs)
     ∧ length ((λ d, (dataset_id, doc_id d)) <$> docs) = length docs).
Proof.
  intros out docs. subst out. unfold DataSourceNotionDatasetSyncApi.get. split.
  - by intros ->.
  - intros [ds ->] Hall. rewrite bind_run.
    unfold DocumentService.get_document_by_dataset_id. fold docs.
    rewrite (delay_each_all _ _ _ Hall). simpl.
    by rewrite length_fmap.
Qed.

Lemma dataset_sync_enqueues_witness :
  let w := Scenario.world Scenario.store_docs Scenario.always in
  (DataSourceNotionDatasetSyncApi.get "D" w).2 = inr 200
  ∧ task_queue (DataSourceNotionDatasetSyncApi.get "D" w).1
    = [("D", "d1"); ("D", "d2"); ("D", "d3")]
  ∧ DataSourceNotionDatasetSyncApi.get "missing" w = (w, inl dataset_not_found).
Proof.
  intros w.
  destruct (dataset_sync_enqueues w "D") as [_ Hfound].
  destruct Hfound as (Hret & _ & Hqueue & _); [by eexists | done |].
  destruct (dataset_sync_enqueues w "missing") as [Hmissing _].
  split; [exact Hret|]. split; [exact Hqueue|]. by apply Hmissing.
Defined.

(** C8. [syncDocument] fails with NotFound when no dataset has the id, or
    no document of that dataset has the document id; in both cases the
    runner is not called and nothing is queued.  Otherwise [delay] is called
    exactly once, with the pair of ids; the runner taking it, that one
    request is queued and 200 returned. *)
Theorem document_sync_enqueues (w : World) (dataset_id document_id : string) :
  let out := DataSourceNotionDocumentSyncApi.get dataset_id document_id w in
  (DatasetService.get_dataset (db w) dataset_id = None →
     out = (w, inl dataset_not_found))
  ∧ (is_Some (DatasetService.get_dataset (db w) dataset_id) →
     DocumentService.get_document (db w) dataset_id document_id = None →
     out = (w, inl document_not_found))
  ∧ (is_Some (DatasetService.get_dataset (db w) dataset_id) →
     is_Some (DocumentService.get_document (db w) dataset_id document_id) →
     delay_calls out.1 = delay_calls w ++ [(dataset_id, document_id)]
     ∧ db out.1 = db w
     ∧ (runner_accepts w (dataset_id, document_id) = true →
          out.2 = inr 200
          ∧ task_queue out.1 = task_queue w ++ [(dataset_id, document_id)])).
Proof.
  intros out. subst out. unfold DataSourceNotionDocumentSyncApi.get.
  split; [|split].
  - by intros ->.
  - by intros [ds ->] ->.
  - intros [ds ->] [doc ->]. rewrite bind_run.
    destruct (runner_accepts w (dataset_id, document_id)) eqn:Hacc.
    + by rewrite delay_accepted.
    + by rewrite delay_rejected.
Qed.

Lemma document_sync_enqueues_witness :
  let w := Scenario.world Scenario.store_docs Scenario.always in
  (DataSourceNotionDocumentSyncApi.get "D" "d2" w).2 = inr 200
  ∧ task_queue (DataSourceNotionDocumentSyncApi.get "D" "d2" w).1 = [("D", "d2")]
  ∧ DataSourceNotionDocumentSyncApi.get "D" "d9" w = (w, inl document_not_found)
  ∧ DataSourceNotionDocumentSyncApi.get "X" "d2" w = (w, inl dataset_not_found).
Proof.
  intros w.
  destruct (document_sync_enqueues w "D" "d2") as (_ & _ & Hfound).
  destruct Hfound as (_ & _ & Hacc); [by eexists | by eexists |].
  destruct (Hacc eq_refl) as [Hret Hqueue].
  destruct (document_sync_enqueues w "D" "d9") as (_ & Hnodoc & _).
  destruct (document_sync_enqueues w "X" "d2") as (Hnods & _).
  split; [exact Hret|]. split; [exact Hqueue|]. split.
  - apply Hnodoc; [by eexists | reflexivity].
  - apply Hnods. reflexivity.
Defined.

(** C9 (amended).  [syncDataset] stops at the first request the runner
    rejects: the documents before it are queued, [delay] is not called for
    any document after it, and the failure is raised to the caller; the
    handler returns no counts, only 200 when every request was taken. *)
Theorem dataset_sync_stops_at_failure (w : World) (dataset_id : string)
    (pre post : list Document) (d : Document) :
  is_Some (DatasetService.get_dataset (db w) dataset_id) →
  filter (λ x, doc_dataset_id x = dataset_id) (documents (db w))
    = pre ++ d :: post →
  (∀ x, x ∈ pre → runner_accepts w (dataset_id, doc_id x) = true) →
  runner_accepts w (dataset_id, doc_id d) = false →
  let out := DataSourceNotionDatasetSyncApi.get dataset_id w in
  out.2 = inl DispatchFailure
  ∧ delay_calls out.1
    = delay_calls w ++ ((λ x, (dataset_id, doc_id x)) <$> pre)
                    ++ [(dataset_id, doc_id d)]
  ∧ task_queue out.1 = task_queue w ++ ((λ x, (dataset_id, doc_id x)) <$> pre).
Proof.
  intros [ds Hds] Hdocs Hpre Hd out. subst out.
  unfold DataSourceNotionDatasetSyncApi.get. rewrite Hds, bind_run.
  unfold DocumentService.get_document_by_dataset_id. rewrite Hdocs.
  by rewrite (delay_each_stops _ _ _ _ _ Hpre Hd).
Qed.

Lemma dataset_sync_stops_at_failure_witness :
  let w := Scenario.world Scenario.store_docs (rejects "d2") in
  (DataSourceNotionDatasetSyncApi.get "D" w).2 = inl DispatchFailure
  ∧ delay_calls (DataSourceNotionDatasetSyncApi.get "D" w).1
    = [("D", "d1"); ("D", "d2")]
  ∧ task_queue (DataSourceNotionDatasetSyncApi.get "D" w).1 = [("D", "d1")].
Proof.
  intros w.
  apply (dataset_sync_stops_at_failure w "D"
           [Scenario.document "d1" "p1" true] [Scenario.document "d3" "p3" true]
           (Scenario.document "d2" "p2" false)).
  - by eexists.
  - reflexivity.
  - intros x Hx. apply list_elem_of_singleton in Hx as ->. reflexivity.
  - reflexivity.
Defined.

(** C9 (the claim fails).  Dataset D has three documents and the runner
    rejects the first request: the handler raises at once, [delay] is never
    called for d2 and d3 although the runner would take them, and no count
    is returned. *)
Lemma dataset_sync_aborts_on_first_failure :
  let w := Scenario.world Scenario.store_docs (rejects "d1") in
  let out := DataSourceNotionDatasetSyncApi.get "D" w in
  out.2 = inl DispatchFailure
  ∧ delay_calls out.1 = [("D", "d1")]
  ∧ task_queue out.1 = []
  ∧ runner_accepts w ("D", "d2") = true
  ∧ runner_accepts w ("D", "d3") = true.
Proof. repeat split; reflexivity. Qed.

(** * Further properties of the handlers *)

(** ** The catalogue *)

(** X1. The catalogue lists exactly the caller's active notion bindings:
    every entry is bound, not disabled, and carries the id, creation time
    and source info of such a row; and every such row has its entry. *)
Theorem integrates_exactly_active_of_tenant (w : World) (tenant url_root : string) :
  ∃ entries,
    (DataSourceApi.get tenant url_root w).2 = inr entries
    ∧ (∀ e, e ∈ entries →
         DataSourceApi.ie_is_bound e = true
         ∧ DataSourceApi.ie_disabled e = Some false
         ∧ DataSourceApi.ie_provider e = "notion"
         ∧ ∃ b, b ∈ bindings (db w)
             ∧ bind_tenant_id b = tenant ∧ bind_disabled b = false
             ∧ bind_provider b = "notion"
             ∧ DataSourceApi.ie_id e = Some (bind_id b)
             ∧ DataSourceApi.ie_created_at e = Some (bind_created_at b)
             ∧ DataSourceApi.ie_source_info e = Some (bind_source_info b))
    ∧ (∀ b, b ∈ bindings (db w) →
         bind_tenant_id b = tenant → bind_disabled b = false →
         bind_provider b = "notion" →
         ∃ e, e ∈ entries ∧ DataSourceApi.ie_id e = Some (bind_id b)).
Proof.
  eexists. split; [apply integrates_entries|]. split.
  - intros e He. apply list_elem_of_fmap in He as (b & -> & Hb).
    apply list_elem_of_filter in Hb as [Hprov Hb].
    apply list_elem_of_filter in Hb as [[Hten Hdis] Hb].
    simpl. rewrite Hdis. split; [done|]. split; [done|]. split; [done|].
    exists b. done.
  - intros b Hb Hten Hdis Hprov.
    exists (DataSourceApi.bound_entry (DataSourceApi.rstrip_slash url_root) "notion" b).
    split; [|done]. apply list_elem_of_fmap. exists b. split; [done|].
    apply list_elem_of_filter. split; [done|].
    apply list_elem_of_filter. done.
Qed.

Lemma rstrip_slash_slashes n : DataSourceApi.rstrip_slash (slashes n) = "".
Proof.
  induction n as [|n IH]; [done|].
  change (slashes (S n)) with (String "/"%char (slashes n)).
  simpl. by rewrite IH.
Qed.

Lemma rstrip_slash_app s n :
  DataSourceApi.rstrip_slash (s +:+ slashes n) = DataSourceApi.rstrip_slash s.
Proof.
  induction s as [|c s IH]; simpl.
  - apply rstrip_slash_slashes.
  - by rewrite IH.
Qed.

Lemma rstrip_slash_no_trailing s s' :
  DataSourceApi.rstrip_slash s ≠ s' +:+ "/".
Proof.
  revert s'. induction s as [|c s IH]; intros s'; simpl.
  - by destruct s'.
  - destruct (DataSourceApi.rstrip_slash s) as [|c' r] eqn:Hr.
    + destruct (Ascii.eqb c "/") eqn:Hc.
      * by destruct s'.
      * destruct s' as [|c'' s'']; simpl.
        -- intros [= ->]. by rewrite Ascii.eqb_refl in Hc.
        -- intros [= _ Hs]. by destruct s''.
    + destruct s' as [|c'' s'']; simpl.
      * done.
      * intros [= -> Hr']. by apply (IH s'').
Qed.

(** X2. Trailing slashes of the request's root URL never reach the
    authorization link: the base the link is built from does not end in
    ['/'], and any number of trailing slashes gives the same catalogue. *)
Theorem integrates_link_ignores_trailing_slashes (w : World)
    (tenant url_root : string) (n : nat) :
  DataSourceApi.get tenant (url_root +:+ slashes n) w
    = DataSourceApi.get tenant url_root w
  ∧ (∀ s, DataSourceApi.rstrip_slash url_root ≠ s +:+ "/")
  ∧ ∃ k, url_root = DataSourceApi.rstrip_slash url_root +:+ slashes k.
Proof.
  split; [|split].
  - unfold DataSourceApi.get. by rewrite rstrip_slash_app.
  - apply rstrip_slash_no_trailing.
  - clear n. induction url_root as [|c s [k IH]]; simpl.
    + by exists 0%nat.
    + destruct (DataSourceApi.rstrip_slash s) as [|c' r] eqn:Hr.
      * destruct (Ascii.eqb c "/") eqn:Hc.
        -- apply Ascii.eqb_eq in Hc as ->. exists (S k). simpl in *.
           by rewrite IH at 1.
        -- exists k. simpl in *. by rewrite IH at 1.
      * exists k. simpl in *. by rewrite IH at 1.
Qed.

(** ** Transitions, composed *)

Lemma patch_world w tenant now binding_id action :
  (DataSourceApi.patch tenant now binding_id action w).1 = w
  ∨ ∃ i b, DataSourceApi.first_by_id binding_id (bindings (db w)) = Some (i, b)
      ∧ ((DataSourceApi.patch tenant now binding_id action w).1 = set_session w [b]
         ∨ ∃ d, (DataSourceApi.patch tenant now binding_id action w).1
                = committed w i (DataSourceApi.set_disabled b d now)).
Proof.
  destruct (DataSourceApi.first_by_id binding_id (bindings (db w)))
    as [[i b]|] eqn:Hfind.
  - right. exists i, b. split; [done|].
    rewrite (patch_found _ _ _ _ _ _ _ Hfind).
    repeat case_bool_decide; destruct (bind_disabled b); simpl; eauto.
  - left. by rewrite (patch_missing _ _ _ _ _ Hfind).
Qed.


(** X3. Whatever the action and the outcome, a transition leaves datasets
    and documents alone, keeps the number of bindings, and changes no
    binding with another id; of the binding it resolves it keeps the id, the
    tenant, the provider, the access token, the source info and the creation
    time. *)
Theorem patch_frame (w : World) (tenant : string) (now : Z)
    (binding_id action : string) :
  let s' := db (DataSourceApi.patch tenant now binding_id action w).1 in
  datasets s' = datasets (db w)
  ∧ documents s' = documents (db w)
  ∧ length (bindings s') = length (bindings (db w))
  ∧ ∀ j b, bindings (db w) !! j = Some b →
      ∃ b', bindings s' !! j = Some b'
        ∧ bind_id b' = bind_id b
        ∧ bind_tenant_id b' = bind_tenant_id b
        ∧ bind_provider b' = bind_provider b
        ∧ bind_access_token b' = bind_access_token b
        ∧ bind_source_info b' = bind_source_info b
        ∧ bind_created_at b' = bind_created_at b
        ∧ (bind_id b ≠ binding_id → b' = b).
Proof.
  intros s'. subst s'.
  destruct (patch_world w tenant now binding_id action)
    as [-> | (i & b0 & Hfind & [-> | [d ->]])].
  - repeat split; [done..|]. intros j b Hb. exists b. done.
  - repeat split; [done..|]. intros j b Hb. exists b. done.
  - simpl. split; [done|]. split; [done|]. split; [by rewrite length_insert|].
    apply first_by_id_spec in Hfind as [Hi Hid].
    intros j b Hb. destruct (decide (j = i)) as [-> | Hji].
    + rewrite Hi in Hb. injection Hb as <-.
      exists (DataSourceApi.set_disabled b0 d now). split.
      * apply list_lookup_insert_eq. by eapply lookup_lt_Some.
      * repeat split; done.
    + exists b. split; [by rewrite list_lookup_insert_ne|]. done.
Qed.



(** X5. With binding ids unique, a binding that was just disabled is in no
    tenant's catalogue any more. *)
Theorem disable_hides_binding (w : World) (tenant : string) (now : Z)
    (binding_id : string) (i : nat) (b : DataSourceBinding) :
  NoDup (bind_id <$> bindings (db w)) →
  DataSourceApi.first_by_id binding_id (bindings (db w)) = Some (i, b) →
  bind_disabled b = false →
  let w1 := (DataSourceApi.patch tenant now binding_id "disable" w).1 in
  ∀ t url_root entries,
    (DataSourceApi.get t url_root w1).2 = inr entries →
    ∀ e, e ∈ entries → DataSourceApi.ie_id e ≠ Some binding_id.
Proof.
  intros Hnodup Hfind Hdis w1 t url_root entries Hrun e He. subst w1.
  rewrite integrates_entries in Hrun. injection Hrun as <-.
  apply list_elem_of_fmap in He as (b' & -> & Hb').
  apply list_elem_of_filter in Hb' as [_ Hb'].
  apply list_elem_of_filter in Hb' as [[_ Hact] Hb'].
  rewrite (patch_found _ _ _ _ _ _ _ Hfind) in Hb'. simpl in Hb'.
  rewrite Hdis in Hb'. simpl in Hb'.
  apply first_by_id_spec in Hfind as [Hi Hid].
  apply list_elem_of_lookup in Hb' as [j Hj].
  simpl. intros [= Hsame].
  destruct (decide (j = i)) as [-> | Hji].
  - rewrite list_lookup_insert_eq in Hj by (by eapply lookup_lt_Some).
    injection Hj as <-. done.
  - rewrite list_lookup_insert_ne in Hj by done.
    apply Hji. eapply NoDup_lookup; [exact Hnodup| |].
    + by rewrite list_lookup_fmap, Hj; simpl; rewrite Hsame.
    + by rewrite list_lookup_fmap, Hi; simpl; rewrite Hid.
Qed.

Lemma disable_hides_binding_witness :
  let w := Scenario.world store_pair Scenario.always in
  let w1 := (DataSourceApi.patch "T" 20 "b1" "disable" w).1 in
  ∃ entries, (DataSourceApi.get "T" "http://localhost/" w1).2 = inr entries
    ∧ length entries = 1%nat
    ∧ Forall (λ e, DataSourceApi.ie_id e ≠ Some "b1") entries.
Proof.
  intros w w1. eexists. split; [reflexivity|]. split; [reflexivity|].
  apply Forall_forall. intros e He.
  eapply (disable_hides_binding w "T" 20 "b1" 0%nat
            (Scenario.binding "b1" "T" false)) with (t := "T")
            (url_root := "http://localhost/").
  - apply (bool_decide_unpack (NoDup (bind_id <$> bindings (db w)))). reflexivity.
  - reflexivity.
  - reflexivity.
  - reflexivity.
  - exact He.
Defined.

(** X6. A notion binding that was just enabled is in its tenant's
    catalogue, bound and not disabled. *)
Theorem enable_shows_binding (w : World) (tenant : string) (now : Z)
    (binding_id : string) (i : nat) (b : DataSourceBinding) :
  DataSourceApi.first_by_id binding_id (bindings (db w)) = Some (i, b) →
  bind_disabled b = true →
  bind_provider b = "notion" →
  let w1 := (DataSourceApi.patch tenant now binding_id "enable" w).1 in
  ∀ url_root, ∃ entries e,
    (DataSourceApi.get (bind_tenant_id b) url_root w1).2 = inr entries
    ∧ e ∈ entries
    ∧ DataSourceApi.ie_id e = Some binding_id
    ∧ DataSourceApi.ie_is_bound e = true
    ∧ DataSourceApi.ie_disabled e = Some false.
Proof.
  intros Hfind Hdis Hprov w1 url_root.
  assert (w1 = committed w i (DataSourceApi.set_disabled b false now)) as ->.
  { subst w1. rewrite (patch_found _ _ _ _ _ _ _ Hfind). simpl. by rewrite Hdis. }
  apply first_by_id_spec in Hfind as [Hi Hid].
  eexists. exists (DataSourceApi.bound_entry (DataSourceApi.rstrip_slash url_root)
                     "notion" (DataSourceApi.set_disabled b false now)).
  split; [apply integrates_entries|]. split; [|by simpl; rewrite Hid].
  apply list_elem_of_fmap. eexists. split; [done|].
  apply list_elem_of_filter. split; [done|].
  apply list_elem_of_filter. split; [done|]. simpl.
  apply list_elem_of_lookup. exists i.
  apply list_lookup_insert_eq. by eapply lookup_lt_Some.
Qed.

Lemma enable_shows_binding_witness :
  let w := Scenario.world Scenario.store_two Scenario.always in
  let w1 := (DataSourceApi.patch "T" 20 "b1" "enable" w).1 in
  ∃ entries e,
    (DataSourceApi.get "T" "http://localhost/" w1).2 = inr entries
    ∧ e ∈ entries ∧ DataSourceApi.ie_id e = Some "b1".
Proof.
  intros w w1.
  destruct (enable_shows_binding w "T" 20 "b1" 0%nat
              (Scenario.binding "b1" "T" true) eq_refl eq_refl eq_refl
              "http://localhost/") as (entries & e & Hrun & He & Hid & _).
  exists entries, e. split; [exact Hrun|]. split; [exact He | exact Hid].
Defined.

(** ** The listing, further *)

(** X7. Once the imported ids are collected, the listing returns exactly
    when every notion binding of the caller that is not disabled stores the
    four keys ['pages'], ['workspace_name'], ['workspace_icon'] and
    ['workspace_id'] and every one of its pages has a ['page_id']; a single
    such binding that does not fails the whole request with a [KeyError].
    Rows of other tenants, of other providers and disabled rows are not
    read. *)
Theorem list_pages_returns_iff_complete (w : World) (tenant : string)
    (dataset_id : option string) (imported : list pyval) :
  DataSourceNotionListApi.exist_page_ids (db w) tenant dataset_id = inr imported →
  let out := (DataSourceNotionListApi.get tenant dataset_id w).2 in
  ((∃ views, out = inr views) ↔
     ∀ b, b ∈ bindings (db w) →
          bind_tenant_id b = tenant → bind_provider b = "notion" →
          bind_disabled b = false → complete b)
  ∧ ((∃ b, b ∈ bindings (db w)
           ∧ bind_tenant_id b = tenant ∧ bind_provider b = "notion"
           ∧ bind_disabled b = false ∧ ¬ complete b) →
       ∃ k, out = inl (KeyError k)).
Proof.
  intros Hids out.
  pose proof (list_pages_run w tenant dataset_id imported Hids) as Hrun.
  simpl in Hrun. fold out in Hrun.
  assert (Forall complete (active_notion tenant (db w)) ↔
          ∀ b, b ∈ bindings (db w) →
               bind_tenant_id b = tenant → bind_provider b = "notion" →
               bind_disabled b = false → complete b) as Hsel.
  { rewrite Forall_forall. unfold active_notion. split.
    - intros Hall b Hb Hten Hprov Hdis. apply Hall.
      apply list_elem_of_filter. done.
    - intros Hall b Hb. apply list_elem_of_filter in Hb as [(? & ? & ?) Hb].
      by apply Hall. }
  split.
  - rewrite <- Hsel. split.
    + intros [views Hv]. rewrite Hv in Hrun. by destruct Hrun.
    + intros Hall. destruct out as [err|views]; [|by eexists].
      by destruct Hrun as [_ Hbad].
  - intros (b & Hb & Hten & Hprov & Hdis & Hbad).
    destruct out as [err|views].
    + destruct Hrun as [[k ->] _]. by exists k.
    + destruct Hrun as [Hall _]. exfalso. apply Hbad.
      rewrite Hsel in Hall. by apply Hall.
Qed.

Lemma list_pages_returns_iff_complete_witness :
  (∃ views, (DataSourceNotionListApi.get "T" None
               (Scenario.world store_skips Scenario.always)).2 = inr views)
  ∧ (∃ k, (DataSourceNotionListApi.get "T" None
             (Scenario.world store_ragged Scenario.always)).2 = inl (KeyError k)).
Proof.
  split.
  - destruct (list_pages_returns_iff_complete
                (Scenario.world store_skips Scenario.always) "T" None [] eq_refl)
      as [[_ Hret] _].
    apply Hret. intros b Hb Hten Hprov Hdis. simpl in Hb.
    apply elem_of_cons in Hb as [-> | Hb].
    { unfold complete. simpl. repeat split; eauto.
      eexists. split; [done|]. repeat constructor; eexists; reflexivity. }
    apply elem_of_cons in Hb as [-> | Hb]; [done|].
    apply elem_of_cons in Hb as [-> | Hb]; [done|].
    by apply elem_of_nil in Hb.
  - destruct (list_pages_returns_iff_complete
                (Scenario.world store_ragged Scenario.always) "T" None [] eq_refl)
      as [_ Hfail].
    apply Hfail. exists binding_no_icon.
    split; [right; left|]. split; [done|]. split; [done|]. split; [done|].
    intros (_ & [icon Hicon] & _). discriminate Hicon.
Defined.

(** X8. Without a dataset id (absent or empty) every page of every view
    comes back with [is_bound = false]. *)
Theorem list_pages_without_dataset_all_unbound (w : World) (tenant : string)
    (dataset_id : option string)
    (views : list DataSourceNotionListApi.PreImportInfo) :
  dataset_id = None ∨ dataset_id = Some "" →
  (DataSourceNotionListApi.get tenant dataset_id w).2 = inr views →
  ∀ v q, v ∈ views → q ∈ DataSourceNotionListApi.pi_pages v →
         q !! "is_bound" = Some (PBool false).
Proof.
  intros Hnone Hrun v q Hv Hq.
  assert (DataSourceNotionListApi.exist_page_ids (db w) tenant dataset_id = inr [])
    as Hids by (by destruct Hnone as [-> | ->]).
  pose proof (list_pages_run w tenant dataset_id [] Hids) as Hinv.
  simpl in Hinv. rewrite Hrun in Hinv. destruct Hinv as [Hall Hviews].
  apply list_elem_of_lookup in Hv as [i Hv].
  destruct (Forall2_lookup_r _ _ _ _ _ Hviews Hv)
    as (b & Hb & _ & _ & _ & ps & Hps & Hpages).
  pose proof (Forall_lookup_1 _ _ _ _ Hall Hb) as (_ & _ & _ & ps' & Hps' & Hwf).
  assert (ps' = ps) as -> by congruence.
  rewrite Hpages in Hq. apply list_elem_of_fmap in Hq as (p & -> & Hp).
  rewrite Forall_forall in Hwf. destruct (Hwf p Hp) as [pid Hpid].
  destruct (annotated_lookup [] p pid Hpid) as [Hbound _].
  rewrite Hbound. by rewrite bool_decide_eq_false_2 by apply not_elem_of_nil.
Qed.

Lemma list_pages_without_dataset_all_unbound_witness :
  let w := Scenario.world Scenario.store_T Scenario.always in
  ∃ views, (DataSourceNotionListApi.get "T" None w).2 = inr views
    ∧ views ≠ []
    ∧ ∀ v q, v ∈ views → q ∈ DataSourceNotionListApi.pi_pages v →
             q !! "is_bound" = Some (PBool false).
Proof.
  intros w. eexists. split; [reflexivity|]. split; [done|].
  apply (list_pages_without_dataset_all_unbound w "T" None); [by left | reflexivity].
Defined.

(** X9. Every view the listing returns is the workspace of an active notion
    binding of the calling tenant, with as many pages as that binding
    stores: no disabled binding, no other provider's and no other tenant's
    workspace is ever listed. *)
Theorem list_pages_views_belong_to_tenant (w : World) (tenant : string)
    (dataset_id : option string)
    (views : list DataSourceNotionListApi.PreImportInfo) :
  (DataSourceNotionListApi.get tenant dataset_id w).2 = inr views →
  ∀ v, v ∈ views →
    ∃ b ps, b ∈ bindings (db w)
      ∧ bind_tenant_id b = tenant ∧ bind_provider b = "notion"
      ∧ bind_disabled b = false
      ∧ workspace_id (bind_source_info b)
          = Some (DataSourceNotionListApi.pi_workspace_id v)
      ∧ workspace_name (bind_source_info b)
          = Some (DataSourceNotionListApi.pi_workspace_name v)
      ∧ pages (bind_source_info b) = Some ps
      ∧ length (DataSourceNotionListApi.pi_pages v) = length ps.
Proof.
  intros Hrun v Hv.
  destruct (DataSourceNotionListApi.exist_page_ids (db w) tenant dataset_id)
    as [e|imported] eqn:Hids.
  { unfold DataSourceNotionListApi.get in Hrun. by rewrite Hids in Hrun. }
  pose proof (list_pages_run w tenant dataset_id imported Hids) as Hinv.
  simpl in Hinv. rewrite Hrun in Hinv. destruct Hinv as [_ Hviews].
  apply list_elem_of_lookup in Hv as [i Hv].
  destruct (Forall2_lookup_r _ _ _ _ _ Hviews Hv)
    as (b & Hb & Hname & _ & Hid & ps & Hps & Hpages).
  apply list_elem_of_lookup_2 in Hb.
  apply list_elem_of_filter in Hb as [(Hten & Hprov & Hdis) Hb].
  exists b, ps. rewrite Hpages, length_fmap. done.
Qed.

Lemma list_pages_views_belong_to_tenant_witness :
  let w := Scenario.world Scenario.store_two Scenario.always in
  ∃ views, (DataSourceNotionListApi.get "T2" None w).2 = inr views
    ∧ ∀ v, v ∈ views →
        ∃ b, b ∈ bindings (db w) ∧ bind_tenant_id b = "T2"
          ∧ bind_disabled b = false.
Proof.
  intros w. eexists. split; [reflexivity|]. intros v Hv.
  destruct (list_pages_views_belong_to_tenant w "T2" None _ eq_refl v Hv)
    as (b & ps & Hb & Hten & _ & Hdis & _).
  exists b. done.
Defined.




(** ** Re-synchronisation, further *)

Lemma delay_each_inv dataset_id docs w :
  let reqs := requests dataset_id docs in
  ∃ n,
    (DataSourceNotionDatasetSyncApi.delay_each dataset_id docs w
       = (dispatched w (take n reqs) (take n reqs), inr tt)
     ∧ n = length docs)
    ∨ (DataSourceNotionDatasetSyncApi.delay_each dataset_id docs w
         = (dispatched w (take (S n) reqs) (take n reqs), inl DispatchFailure)
       ∧ (n < length docs)%nat).
Proof.
  revert w. induction docs as [|d docs IH]; intros w; simpl.
  - exists 0%nat. left. by rewrite dispatched_nil.
  - rewrite bind_run.
    destruct (runner_accepts w (dataset_id, doc_id d)) eqn:Hacc.
    + rewrite delay_accepted by done.
      destruct (IH (dispatched w [(dataset_id, doc_id d)] [(dataset_id, doc_id d)]))
        as [n [[Hrun ->] | [Hrun Hlt]]].
      * exists (S (length docs)). left. split; [|done].
        cbv beta iota. etrans; [exact Hrun|]. by rewrite dispatched_app.
      * exists (S n). right. split; [|lia].
        cbv beta iota. etrans; [exact Hrun|]. by rewrite dispatched_app.
    + rewrite delay_rejected by done.
      exists 0%nat. right. split; [done | lia].
Qed.

(** X11. Whatever the runner does, [syncDataset] leaves the store and the
    session alone, and what it hands to the runner is an initial segment of
    the dataset's requests in document order: it queues the first [n], and
    either that is all of them and it returns 200, or it called [delay] once
    more, for request [n], and raised the dispatch failure. *)
Theorem dataset_sync_queues_a_prefix (w : World) (dataset_id : string) :
  let out := DataSourceNotionDatasetSyncApi.get dataset_id w in
  let reqs :=
    (λ d, (dataset_id, doc_id d))
      <$> DocumentService.get_document_by_dataset_id (db w) dataset_id in
  db out.1 = db w ∧ session out.1 = session w
  ∧ ∃ n, task_queue out.1 = task_queue w ++ take n reqs
      ∧ ((out.2 = inr 200 ∧ n = length reqs
          ∧ delay_calls out.1 = delay_calls w ++ reqs)
         ∨ (out.2 = inl DispatchFailure ∧ (n < length reqs)%nat
            ∧ delay_calls out.1 = delay_calls w ++ take (S n) reqs)
         ∨ (out.2 = inl dataset_not_found ∧ n = 0%nat
            ∧ delay_calls out.1 = delay_calls w)).
Proof.
  intros out reqs. subst out. unfold DataSourceNotionDatasetSyncApi.get.
  destruct (DatasetService.get_dataset (db w) dataset_id) as [ds|].
  - rewrite bind_run.
    destruct (delay_each_inv dataset_id
                (DocumentService.get_document_by_dataset_id (db w) dataset_id) w)
      as [n [[-> ->] | [-> Hlt]]]; simpl.
    + split; [done|]. split; [done|]. eexists. split; [done|]. left.
      assert (length reqs
              = length (DocumentService.get_document_by_dataset_id (db w) dataset_id))
        as Hlen by (subst reqs; by rewrite length_fmap).
      split; [done|]. split; [done|].
      f_equal. unfold requests. fold reqs. rewrite <- Hlen. apply firstn_all.
    + split; [done|]. split; [done|]. exists n. split; [done|]. right. left.
      subst reqs. by rewrite length_fmap.
  - simpl. split; [done|]. split; [done|]. exists 0%nat.
    split; [by rewrite app_nil_r|]. right. right. done.
Qed.

(** X12. Nothing is deduplicated: a second [syncDocument] for the same pair
    queues the same request a second time. *)
Theorem document_sync_twice_queues_twice (w : World)
    (dataset_id document_id : string) :
  is_Some (DatasetService.get_dataset (db w) dataset_id) →
  is_Some (DocumentService.get_document (db w) dataset_id document_id) →
  runner_accepts w (dataset_id, document_id) = true →
  let w1 := (DataSourceNotionDocumentSyncApi.get dataset_id document_id w).1 in
  let out := DataSourceNotionDocumentSyncApi.get dataset_id document_id w1 in
  out.2 = inr 200
  ∧ task_queue out.1
    = task_queue w ++ [(dataset_id, document_id); (dataset_id, document_id)].
Proof.
  intros [ds Hds] [doc Hdoc] Hacc w1 out. subst out w1.
  unfold DataSourceNotionDocumentSyncApi.get at 2 4.
  rewrite Hds, Hdoc, bind_run, delay_accepted by done. simpl.
  unfold DataSourceNotionDocumentSyncApi.get. simpl.
  rewrite Hds, Hdoc, bind_run, delay_accepted by done. simpl.
  by rewrite <- app_assoc.
Qed.

Lemma document_sync_twice_queues_twice_witness :
  let w := Scenario.world Scenario.store_docs Scenario.always in
  task_queue
    (DataSourceNotionDocumentSyncApi.get "D" "d1"
       (DataSourceNotionDocumentSyncApi.get "D" "d1" w).1).1
  = [("D", "d1"); ("D", "d1")].
Proof.
  intros w.
  apply (document_sync_twice_queues_twice w "D" "d1");
    [by eexists | by eexists | reflexivity].
Defined.

Lemma get_document_of_dataset (s : Store) (dataset_id : string) (d : Document) :
  d ∈ DocumentService.get_document_by_dataset_id s dataset_id →
  is_Some (DocumentService.get_document s dataset_id (doc_id d)).
Proof.
  intros Hd. apply list_elem_of_filter in Hd as [Hds Hd].
  unfold DocumentService.get_document.
  apply head_is_Some. intros Hnil.
  eapply (filter_nil_not_elem_of _ _ d Hnil); [|done]. done.
Qed.

Lemma document_syncs_run (w0 : World) (dataset_id : string) (l : list Document) :
  is_Some (DatasetService.get_dataset (db w0) dataset_id) →
  ∀ w, db w = db w0 → runner_accepts w = runner_accepts w0 →
  (∀ d, d ∈ l →
        is_Some (DocumentService.get_document (db w0) dataset_id (doc_id d))
        ∧ runner_accepts w0 (dataset_id, doc_id d) = true) →
  foldl (λ w' d, (DataSourceNotionDocumentSyncApi.get dataset_id (doc_id d) w').1) w l
  = dispatched w (requests dataset_id l) (requests dataset_id l).
Proof.
  intros [ds Hds]. induction l as [|d l IH]; intros w Hdb Hrunner Hall; simpl.
  - by rewrite dispatched_nil.
  - destruct (Hall d) as ([doc Hdoc] & Hacc); [left|].
    unfold DataSourceNotionDocumentSyncApi.get at 2.
    rewrite Hdb, Hds, Hdoc, bind_run, delay_accepted by (by rewrite Hrunner).
    cbv beta iota. simpl fst.
    rewrite IH; [by rewrite dispatched_app|done|done|].
    intros d' Hd'. apply Hall. by right.
Qed.

(** X13. With a runner that takes every request, and every document the
    dataset enumerates found again under its own id, [syncDataset] leaves
    the world exactly as calling [syncDocument] for each of those documents
    in turn, in the enumeration's order. *)
Theorem dataset_sync_is_document_syncs (w : World) (dataset_id : string) :
  is_Some (DatasetService.get_dataset (db w) dataset_id) →
  let docs := DocumentService.get_document_by_dataset_id (db w) dataset_id in
  (∀ d, d ∈ docs →
        is_Some (DocumentService.get_document (db w) dataset_id (doc_id d))) →
  (∀ d, d ∈ docs → runner_accepts w (dataset_id, doc_id d) = true) →
  (DataSourceNotionDatasetSyncApi.get dataset_id w).1
  = foldl (λ w' d, (DataSourceNotionDocumentSyncApi.get dataset_id (doc_id d) w').1)
          w docs.
Proof.
  intros Hds docs Hfound Hall.
  rewrite (document_syncs_run w dataset_id docs Hds w eq_refl eq_refl).
  - destruct Hds as [ds Hds]. unfold DataSourceNotionDatasetSyncApi.get.
    rewrite Hds, bind_run. fold docs. by rewrite (delay_each_all _ _ _ Hall).
  - intros d Hd. split; [by apply Hfound | by apply Hall].
Qed.

Lemma dataset_sync_is_document_syncs_witness :
  let w := Scenario.world Scenario.store_docs Scenario.always in
  (DataSourceNotionDatasetSyncApi.get "D" w).1
  = (DataSourceNotionDocumentSyncApi.get "D" "d3"
       (DataSourceNotionDocumentSyncApi.get "D" "d2"
          (DataSourceNotionDocumentSyncApi.get "D" "d1" w).1).1).1.
Proof.
  intros w.
  apply (dataset_sync_is_document_syncs w "D"); [by eexists | | done].
  intros d Hd. by apply get_document_of_dataset.
Defined.

(** ** Page preview *)

Section Preview.
Variable load : string → string → string → string → result (list string).

(** X14. The preview fails with NotFound, whatever the loader would do,
    when the tenant has no active notion binding for the workspace; else the
    loader is given the access token of such a binding of the calling
    tenant, and the preview is what it loaded, joined by newlines, or the
    error it raised.  The store is never written. *)
Theorem preview_uses_own_binding (w : World)
    (tenant workspace page_id page_type : string) :
  let out := DataSourceNotionApi.get load tenant workspace page_id page_type w in
  db out.1 = db w
  ∧ ((∀ b, b ∈ bindings (db w) →
           ¬ DataSourceNotionApi.authorizes tenant workspace b) →
       out = (w, inl not_found_binding))
  ∧ ((∃ b, b ∈ bindings (db w)
           ∧ DataSourceNotionApi.authorizes tenant workspace b) →
       ∃ b, b ∈ bindings (db w)
         ∧ bind_tenant_id b = tenant ∧ bind_disabled b = false
         ∧ bind_provider b = "notion"
         ∧ workspace_id (bind_source_info b) = Some (PStr workspace)
         ∧ out.2 =
             match load (bind_access_token b) workspace page_id page_type with
             | inl e => inl e
             | inr text_docs =>
                 inr (DataSourceNotionApi.join DataSourceNotionApi.newline text_docs)
             end).
Proof.
  intros out. subst out. unfold DataSourceNotionApi.get,
    DataSourceNotionApi.query_binding.
  destruct (filter (DataSourceNotionApi.authorizes tenant workspace)
              (bindings (db w))) as [|b0 rest] eqn:Hfilter; simpl.
  - split; [done|]. split; [done|].
    intros (b & Hb & Hauth). exfalso.
    by eapply (filter_nil_not_elem_of _ _ b Hfilter).
  - assert (b0 ∈ filter (DataSourceNotionApi.authorizes tenant workspace)
                    (bindings (db w))) as Hb0 by (rewrite Hfilter; left).
    apply list_elem_of_filter in Hb0 as [(Hten & Hprov & Hdis & Hws) Hb0].
    split; [by destruct (load _ _ _ _)|]. split.
    + intros Hnone. exfalso. by apply (Hnone b0 Hb0).
    + intros _. exists b0. by destruct (load _ _ _ _).
Qed.

End Preview.

Lemma preview_uses_own_binding_witness :
  let load := λ token _ page_id _ : string, inr [token; page_id] : result (list string) in
  let w := Scenario.world Scenario.store_two Scenario.always in
  DataSourceNotionApi.get load "T" "w-1" "p1" "page" w = (w, inl not_found_binding)
  ∧ (DataSourceNotionApi.get load "T2" "w-1" "p1" "page" w).2
    = inr ("secret" +:+ DataSourceNotionApi.newline +:+ "p1").
Proof.
  intros load w. split; [|reflexivity].
  destruct (preview_uses_own_binding load w "T" "w-1" "p1" "page") as (_ & Hnone & _).
  apply Hnone. intros b Hb (Hten & _ & Hdis & _).
  apply elem_of_cons in Hb as [-> | Hb]; [done|].
  apply elem_of_cons in Hb as [-> | Hb]; [done|].
  by apply elem_of_nil in Hb.
Defined.

(** ** What a tenant's reads depend on *)

Lemma filter_rows_of (P Q : DataSourceBinding → Prop)
    `{!∀ b, Decision (P b), !∀ b, Decision (Q b)} (tenant : string) (s : Store) :
  (∀ b, P b ↔ Q b ∧ bind_tenant_id b = tenant) →
  filter P (bindings s) = filter Q (rows_of tenant s).
Proof.
  intros HPQ. unfold rows_of. rewrite list_filter_filter.
  by apply list_filter_iff.
Qed.

(** X15. The catalogue, the listing and the preview of a tenant read no
    binding of another tenant: two stores that agree on that tenant's rows
    (and, for the listing, on datasets and documents) give the same
    answers. *)
Theorem reads_depend_on_own_rows (w1 w2 : World) (tenant : string) :
  rows_of tenant (db w1) = rows_of tenant (db w2) →
  (∀ url_root,
     (DataSourceApi.get tenant url_root w1).2
     = (DataSourceApi.get tenant url_root w2).2)
  ∧ (∀ load workspace page_id page_type,
       (DataSourceNotionApi.get load tenant workspace page_id page_type w1).2
       = (DataSourceNotionApi.get load tenant workspace page_id page_type w2).2)
  ∧ (datasets (db w1) = datasets (db w2) →
     documents (db w1) = documents (db w2) →
     ∀ dataset_id,
       (DataSourceNotionListApi.get tenant dataset_id w1).2
       = (DataSourceNotionListApi.get tenant dataset_id w2).2).
Proof.
  intros Hrows. split; [|split].
  - intros url_root. rewrite !integrates_entries.
    unfold DataSourceApi.query_integrates.
    rewrite !(filter_rows_of _ (λ b, bind_disabled b = false) tenant)
      by (intros ?; tauto).
    by rewrite Hrows.
  - intros load workspace page_id page_type.
    unfold DataSourceNotionApi.get, DataSourceNotionApi.query_binding.
    rewrite !(filter_rows_of _ (λ b, bind_provider b = "notion"
                                     ∧ bind_disabled b = false
                                     ∧ workspace_id (bind_source_info b)
                                       = Some (PStr workspace)) tenant)
      by (intros ?; unfold DataSourceNotionApi.authorizes; tauto).
    rewrite Hrows.
    destruct (head _) as [b|]; [|done]. by destruct (load _ _ _ _).
  - intros Hds Hdocs dataset_id.
    assert (DataSourceNotionListApi.exist_page_ids (db w1) tenant dataset_id
            = DataSourceNotionListApi.exist_page_ids (db w2) tenant dataset_id)
      as Hids.
    { unfold DataSourceNotionListApi.exist_page_ids, DatasetService.get_dataset,
        DataSourceNotionListApi.query_documents. by rewrite Hds, Hdocs. }
    assert (DataSourceNotionListApi.query_bindings (db w1) tenant
            = DataSourceNotionListApi.query_bindings (db w2) tenant) as Hbs.
    { unfold DataSourceNotionListApi.query_bindings.
      rewrite !(filter_rows_of _ (λ b, bind_provider b = "notion"
                                       ∧ bind_disabled b = false) tenant)
        by (intros ?; tauto).
      by rewrite Hrows. }
    unfold DataSourceNotionListApi.get. rewrite Hids, Hbs.
    destruct (DataSourceNotionListApi.exist_page_ids (db w2) tenant dataset_id)
      as [e|imported]; [done|].
    destruct (DataSourceNotionListApi.query_bindings (db w2) tenant)
      as [|b0 bs0]; [done|].
    by destruct (DataSourceNotionListApi.annotate_bindings imported (b0 :: bs0) []).
Qed.

Lemma reads_depend_on_own_rows_witness :
  let w1 := Scenario.world Scenario.store_two Scenario.always in
  let w2 := Scenario.world
              {| bindings := [Scenario.binding "b1" "T" true];
                 datasets := []; documents := [] |} Scenario.always in
  (DataSourceApi.get "T" "http://localhost/" w1).2
  = (DataSourceApi.get "T" "http://localhost/" w2).2.
Proof.
  intros w1 w2.
  destruct (reads_depend_on_own_rows w1 w2 "T" eq_refl) as [Hcat _].
  apply Hcat.
Defined.
